(** * DuaSlidesMaker: extraction, pagination and slide layout of [bot.py]

    A shallow embedding of the three pure parts of [bot.py]:
    - [scrape_dua], from the point where the page has been parsed into a
      BeautifulSoup tree (the network fetch and the HTML parser are library
      code and are not modelled);
    - [create_pptx_single_line] and [create_pptx_three_lines], as builders
      of a presentation value that records what python-pptx is told;
    - the file names computed in [receive_image];
    - the handlers [start], [receive_link], [receive_image] and [cancel],
      as functions on the part of the world they can change.

    In the pure parts Python exceptions are modelled by [None] in the
    option monad: a list index out of range (IndexError), [range] with a
    zero step (ValueError) and a background file that [add_picture]
    cannot read are the ones that the modelled code could raise. The
    handlers run in a monad of their own, in which a call to the outside
    can raise with a text. *)

From Stdlib Require Import String Ascii DecimalString DecimalZ.
From stdpp Require Import base option list numbers.

Local Open Scope nat_scope.

(** ** Python text *)

(** A Python [str] is a sequence of Unicode code points. *)
Definition pychar := N.
Definition pystr := list pychar.

(** Literals of the source, written as Rocq strings. *)
Fixpoint lit (s : string) : pystr :=
  match s with
  | EmptyString => []
  | String c s' => N_of_ascii c :: lit s'
  end.
Arguments lit : simpl never.

(** [str.isspace] on one code point: the characters that [str.strip()]
    removes when it is called without argument. *)
Definition isspace (c : pychar) : bool :=
  ((9 <=? c) && (c <=? 13) ||
   (28 <=? c) && (c <=? 32) ||
   (c =? 133) || (c =? 160) || (c =? 5760) ||
   (8192 <=? c) && (c <=? 8202) ||
   (c =? 8232) || (c =? 8233) || (c =? 8239) || (c =? 8287) ||
   (c =? 12288))%N.

Fixpoint lstrip (s : pystr) : pystr :=
  match s with
  | [] => []
  | c :: s' => if isspace c then lstrip s' else s
  end.

Definition rstrip (s : pystr) : pystr := reverse (lstrip (reverse s)).

(** [s.strip()] *)
Definition strip (s : pystr) : pystr := rstrip (lstrip s).

(** Truth value of a [str] in a condition: non-empty. *)
Definition truthy (s : pystr) : bool :=
  match s with
  | [] => false
  | _ :: _ => true
  end.

(** [s.replace(old, new)] for one-character [old] and [new]. *)
Definition replace_char (old new : pychar) (s : pystr) : pystr :=
  (fun c => if (c =? old)%N then new else c) <$> s.

(** ** The parsed page (BeautifulSoup) *)

(** The tree that [BeautifulSoup(response.content, 'html.parser')] returns.
    [NavigableString] is a text node; [Comment] stands for the string
    kinds that [get_text] leaves out (comments, doctype, declarations,
    the text of [script] and [style]);
    a [Tag] has its (lower-cased) name, the tokens of its [class]
    attribute and its children. *)
#[warnings="-register-all"]
Inductive PageElement : Type :=
| NavigableString (s : pystr)
| Comment (s : pystr)
| Tag (name : pystr) (class_ : list pystr) (contents : list PageElement).

(** [e.descendants]: all nodes below [e], in document order. *)
Fixpoint descendants (e : PageElement) : list PageElement :=
  match e with
  | Tag _ _ contents =>
      (fix below (cs : list PageElement) : list PageElement :=
         match cs with
         | [] => []
         | c :: cs' => c :: descendants c ++ below cs'
         end) contents
  | _ => []
  end.

(** Does [e] match [find_all(name, class_=cls)]?  Only tags match; the
    class filter, when given, asks for [cls] among the class tokens. *)
Definition matches (name : pystr) (cls : option pystr) (e : PageElement) : bool :=
  match e with
  | Tag n cl _ =>
      bool_decide (n = name) &&
      match cls with
      | None => true
      | Some c => bool_decide (c ∈ cl)
      end
  | _ => false
  end.

(** [soup.find_all(name, class_=cls)] *)
Definition find_all (name : pystr) (cls : option pystr) (soup : PageElement)
  : list PageElement :=
  List.filter (matches name cls) (descendants soup).

(** [soup.find(name)]: the first result of [find_all], or [None]. *)
Definition find (name : pystr) (soup : PageElement) : option PageElement :=
  head (find_all name None soup).

(** The text nodes below [e] that [get_text] looks at, in document order. *)
Definition all_strings (e : PageElement) : list pystr :=
  omap (fun d => match d with NavigableString s => Some s | _ => None end)
       (descendants e).

(** [e.get_text()]: the text nodes joined with the empty separator. *)
Definition get_text (e : PageElement) : pystr :=
  concat (all_strings e).

(** [e.get_text(strip=True)]: every text node is stripped, the empty ones
    are left out, and the rest is joined with the empty separator. *)
Definition get_text_strip (e : PageElement) : pystr :=
  concat (List.filter truthy (strip <$> all_strings e)).

(** ** [DuaLine] and [scrape_dua] *)

Record DuaLine : Type := mkDuaLine { arabic : pystr; translation : pystr }.

(** [DuaLine.__init__] *)
Definition DuaLine_init (arabic translation : pystr) : DuaLine :=
  {| arabic := strip arabic; translation := strip translation |}.

(** A [for] loop whose body may raise: the state is threaded through the
    iterations and the first exception ends the loop. *)
Fixpoint for_in {S A : Type} (xs : list A) (body : S → A → option S) (st : S)
  : option S :=
  match xs with
  | [] => Some st
  | x :: xs' => st' ← body st x; for_in xs' body st'
  end.

(** Lines 45-49, the body of the pairing loop. [l !! i] is Python's
    [l[i]], with [None] for IndexError. *)
Definition pair_step (arabic_divs translation_divs : list PageElement)
    (dua_lines : list DuaLine) (i : nat) : option (list DuaLine) :=
  a ← arabic_divs !! i;
  t ← translation_divs !! i;
  let arabic_text := get_text_strip a in
  let translation_text := get_text_strip t in
  if truthy arabic_text && truthy translation_text
  then Some (dua_lines ++ [DuaLine_init arabic_text translation_text])
  else Some dua_lines.

(** The body of [scrape_dua] after the page has been parsed. *)
Definition scrape_dua (soup : PageElement) : option (list DuaLine * pystr) :=
  let arabic_divs := find_all (lit "div") (Some (lit "Ara")) soup in
  let translation_divs := find_all (lit "div") (Some (lit "Tra")) soup in
  dua_lines ←
    for_in (seq 0 (min (length arabic_divs) (length translation_divs)))
      (pair_step arabic_divs translation_divs) [];
  let title_elem := find (lit "ptitle") soup in
  let title :=
    match title_elem with
    | Some e => get_text_strip e   (* a Tag is always true in a condition *)
    | None => lit "Dua"
    end in
  Some (dua_lines, title).

(** ** The presentation objects (python-pptx) *)

(** Lengths are English Metric Units, as python-pptx stores them.
    [Pt(n)] is [n * 12700]. The source writes inches as decimal literals
    with at most one decimal ([Inches(5.2)], [Inches(0.3)], ...), and
    [Inches(t / 10)] is [int(t / 10 * 914400)], that is [t * 91440]. *)
Definition Pt (n : Z) : Z := (n * 12700)%Z.
Definition Inches10 (tenths : Z) : Z := (tenths * 91440)%Z.

Inductive PP_ALIGN : Type := LEFT | CENTER | RIGHT | JUSTIFY.

Record RGBColor : Type := mkRGB { red : N; green : N; blue : N }.

(** A paragraph and the properties the source sets on it; [None] is a
    property that was never assigned. *)
Record Paragraph : Type := mkParagraph {
  text : pystr;
  alignment : option PP_ALIGN;
  font_size : option Z;
  font_bold : option bool;
  font_color : option RGBColor;
  font_name : option pystr;
  space_after : option Z
}.

(** The one empty paragraph of a new text frame, and what
    [add_paragraph()] appends. *)
Definition empty_paragraph : Paragraph :=
  {| text := []; alignment := None; font_size := None; font_bold := None;
     font_color := None; font_name := None; space_after := None |}.

Record TextFrame : Type := mkTextFrame {
  word_wrap : option bool;
  vertical_anchor : option Z;
  paragraphs : list Paragraph
}.

Inductive Shape : Type :=
| Picture (image_file : pystr) (left top width height : Z)
| AutoShape (shape_type : Z) (left top width height : Z)
            (fill_rgb : RGBColor)
| TextBox (left top width height : Z) (text_frame : TextFrame).

Record Slide : Type := mkSlide { layout : nat; shapes : list Shape }.

Record Presentation : Type := mkPresentation {
  slide_width : Z;
  slide_height : Z;
  slides : list Slide
}.

(** [slide.shapes.add_...(...)]: the new shape goes last. *)
Definition add_shape (sh : Shape) (slide : Slide) : Slide :=
  {| layout := layout slide; shapes := shapes slide ++ [sh] |}.

(** [prs.slides.add_slide(layout)], once the slide is complete. *)
Definition add_slide (slide : Slide) (prs : Presentation) : Presentation :=
  {| slide_width := slide_width prs; slide_height := slide_height prs;
     slides := slides prs ++ [slide] |}.

(** The text frames of the text boxes of a slide, in shape order. *)
Definition text_frames (slide : Slide) : list TextFrame :=
  omap (fun sh => match sh with TextBox _ _ _ _ f => Some f | _ => None end)
       (shapes slide).

(** ** Python's [range], slices and [enumerate] *)

(** [range(start, stop, step)] for natural numbers; a zero step raises
    ValueError. *)
Definition py_range (start stop step : nat) : option (list nat) :=
  if decide (step = 0) then None
  else Some ((fun j => start + j * step) <$>
             seq 0 ((stop - start + (step - 1)) / step)).

(** [l[i:j]] for [0 <= i <= j]: out-of-range bounds are clipped. *)
Definition slice {A : Type} (l : list A) (i j : nat) : list A :=
  take (j - i) (drop i l).

(** [enumerate(l)] *)
Definition enumerate {A : Type} (l : list A) : list (nat * A) :=
  zip (seq 0 (length l)) l.

(** [p = frame.paragraphs[idx]] followed by assignments to [p]: the
    paragraph at [idx] is replaced by its updated version; IndexError
    when there is no such paragraph. *)
Definition with_paragraph (idx : nat) (upd : Paragraph → Paragraph)
    (frame : list Paragraph) : option (list Paragraph) :=
  p ← frame !! idx;
  Some (<[idx := upd p]> frame).

(** ** The two builders *)

Definition white : RGBColor := mkRGB 255 255 255.
Definition black : RGBColor := mkRGB 0 0 0.

(** Lines 74-80 and 146-152: the picture is asked for when the path is a
    non-empty string and [os.path.exists] (here [path_exists], the state
    of the file system) says the file is there. [add_picture] reads the
    file and raises when it is not an image that python-pptx can read;
    [picture_ok] says of a path whether it can. *)
Definition add_background (path_exists picture_ok : pystr → bool)
    (bg_image_path : option pystr) (prs : Presentation) (slide : Slide)
  : option Slide :=
  match bg_image_path with
  | Some path =>
      if truthy path && path_exists path
      then
        if picture_ok path
        then Some (add_shape
                     (Picture path 0 0 (slide_width prs) (slide_height prs))
                     slide)
        else None
      else Some slide
  | None => Some slide
  end.

(** Lines 83-92 and 155-164: the black rectangle over the whole slide,
    with a solid fill and no outline. Line 91 assigns [transparency] on
    the fill, which is not a property of python-pptx's fill: the
    assignment changes nothing in the shape, which stays opaque. *)
Definition overlay (prs : Presentation) : Shape :=
  AutoShape 1 0 0 (slide_width prs) (slide_height prs) black.

(** Lines 106-111. *)
Definition arabic_single (line : DuaLine) (p : Paragraph) : Paragraph :=
  {| text := arabic line; alignment := Some RIGHT; font_size := Some (Pt 28);
     font_bold := Some true; font_color := Some white;
     font_name := Some (lit "Arial"); space_after := space_after p |}.

(** Lines 125-129. *)
Definition english_single (line : DuaLine) (p : Paragraph) : Paragraph :=
  {| text := translation line; alignment := Some LEFT; font_size := Some (Pt 24);
     font_bold := font_bold p; font_color := Some white;
     font_name := Some (lit "Arial"); space_after := space_after p |}.

(** Lines 184-190. *)
Definition arabic_three (line : DuaLine) (p : Paragraph) : Paragraph :=
  {| text := arabic line; alignment := Some RIGHT; font_size := Some (Pt 22);
     font_bold := Some true; font_color := Some white;
     font_name := Some (lit "Arial"); space_after := Some (Pt 20) |}.

(** Lines 207-212. *)
Definition english_three (line : DuaLine) (p : Paragraph) : Paragraph :=
  {| text := translation line; alignment := Some LEFT; font_size := Some (Pt 18);
     font_bold := font_bold p; font_color := Some white;
     font_name := Some (lit "Arial"); space_after := Some (Pt 20) |}.

(** [prs.slide_layouts[6]], the blank layout. *)
Definition blank_layout : nat := 6.

Definition new_presentation : Presentation :=
  {| slide_width := Inches10 100; slide_height := Inches10 75; slides := [] |}.

(** Lines 71-129, the body of the slide loop of
    [create_pptx_single_line]: one slide for [line], added to [prs]. *)
Definition single_line_step (path_exists picture_ok : pystr → bool)
    (bg_image_path : option pystr) (prs : Presentation) (line : DuaLine)
  : option Presentation :=
  let slide := {| layout := blank_layout; shapes := [] |} in
  slide ← add_background path_exists picture_ok bg_image_path prs slide;
  let slide := add_shape (overlay prs) slide in
  arabic_paragraphs ← with_paragraph 0 (arabic_single line) [empty_paragraph];
  let slide :=
    add_shape (TextBox (Inches10 52) (Inches10 25) (Inches10 45) (Inches10 25)
                 (mkTextFrame (Some true) (Some 1%Z) arabic_paragraphs)) slide in
  english_paragraphs ← with_paragraph 0 (english_single line) [empty_paragraph];
  let slide :=
    add_shape (TextBox (Inches10 3) (Inches10 25) (Inches10 45) (Inches10 25)
                 (mkTextFrame (Some true) (Some 1%Z) english_paragraphs)) slide in
  Some (add_slide slide prs).

(** [create_pptx_single_line(dua_lines, title, bg_image_path)] *)
Definition create_pptx_single_line (path_exists picture_ok : pystr → bool)
    (dua_lines : list DuaLine) (title : pystr) (bg_image_path : option pystr)
  : option Presentation :=
  let prs := new_presentation in
  for_in dua_lines (single_line_step path_exists picture_ok bg_image_path) prs.

(** The paragraph loops of lines 180-190 and 203-212: every line after
    the first gets a new paragraph, then the paragraph at its index is
    filled in. *)
Definition fill_frame (style : DuaLine → Paragraph → Paragraph)
    (current_lines : list DuaLine) : option (list Paragraph) :=
  for_in (enumerate current_lines)
    (fun frame '(idx, line) =>
       let frame := if 0 <? idx then frame ++ [empty_paragraph] else frame in
       with_paragraph idx (style line) frame)
    [empty_paragraph].

(** Lines 143-212, the body of the slide loop of
    [create_pptx_three_lines]: one slide for the lines from position [i]
    on, added to [prs]. *)
Definition three_lines_step (path_exists picture_ok : pystr → bool)
    (dua_lines : list DuaLine) (bg_image_path : option pystr)
    (prs : Presentation) (i : nat) : option Presentation :=
  let slide := {| layout := blank_layout; shapes := [] |} in
  slide ← add_background path_exists picture_ok bg_image_path prs slide;
  let slide := add_shape (overlay prs) slide in
  let current_lines := slice dua_lines i (i + 3) in
  arabic_paragraphs ← fill_frame arabic_three current_lines;
  let slide :=
    add_shape (TextBox (Inches10 52) (Inches10 10) (Inches10 45) (Inches10 55)
                 (mkTextFrame (Some true) (Some 1%Z) arabic_paragraphs)) slide in
  english_paragraphs ← fill_frame english_three current_lines;
  let slide :=
    add_shape (TextBox (Inches10 3) (Inches10 10) (Inches10 45) (Inches10 55)
                 (mkTextFrame (Some true) (Some 1%Z) english_paragraphs)) slide in
  Some (add_slide slide prs).

(** [create_pptx_three_lines(dua_lines, title, bg_image_path)] *)
Definition create_pptx_three_lines (path_exists picture_ok : pystr → bool)
    (dua_lines : list DuaLine) (title : pystr) (bg_image_path : option pystr)
  : option Presentation :=
  let prs := new_presentation in
  starts ← py_range 0 (length dua_lines) 3;
  for_in starts
    (three_lines_step path_exists picture_ok dua_lines bg_image_path) prs.

(** The grouping of lines 142 and 167, [for i in range(0, len(dua_lines), 3)]
    with [dua_lines[i:i+3]], with the group size [3] as the parameter [k].
    [create_pptx_three_lines] builds one slide from each group of
    [paginate dua_lines 3]; the loop of [create_pptx_single_line] takes
    one line per slide. *)
Definition paginate (dua_lines : list DuaLine) (k : nat) : option (list (list DuaLine)) :=
  match py_range 0 (length dua_lines) k with
  | Some starts => Some ((fun i => slice dua_lines i (i + k)) <$> starts)
  | None => None
  end.

(** ** File names of [receive_image] *)

(** Lines 308 and 314: [f"{title.replace(' ', '_')}_single_line.pptx"]. *)
Definition single_filename (title : pystr) : pystr :=
  replace_char 32%N 95%N title ++ lit "_single_line.pptx".

Definition three_filename (title : pystr) : pystr :=
  replace_char 32%N 95%N title ++ lit "_three_lines.pptx".

(** ** Closed forms used in the statements *)

(** The background can be used: no picture is asked for (no path, an
    empty path, no such file), or the file can be read as an image. *)
Definition usable (path_exists picture_ok : pystr → bool)
    (bg : option pystr) : Prop :=
  match bg with
  | Some path => truthy path && path_exists path = true → picture_ok path = true
  | None => True
  end.

(** The members of python-pptx's [MSO_ANCHOR] and the integers they stand
    for. *)
Inductive MSO_ANCHOR : Type := TOP | MIDDLE | BOTTOM | MIXED.

Definition MSO_ANCHOR_of (value : Z) : option MSO_ANCHOR :=
  if (value =? 1)%Z then Some TOP
  else if (value =? 3)%Z then Some MIDDLE
  else if (value =? 4)%Z then Some BOTTOM
  else if (value =? -2)%Z then Some MIXED
  else None.

(** What the paragraph loop leaves in a frame for the lines [g] of one
    slide: one paragraph per line, each a fresh paragraph with the
    assignments of [style]. *)
Definition rendered (style : DuaLine → Paragraph → Paragraph)
    (g : list DuaLine) : list Paragraph :=
  (fun line => style line empty_paragraph) <$> g.

(** The shapes that the background test leaves on a new slide. *)
Definition background_shapes (path_exists : pystr → bool)
    (bg_image_path : option pystr) : list Shape :=
  match bg_image_path with
  | Some path =>
      if truthy path && path_exists path
      then [Picture path 0 0 (Inches10 100) (Inches10 75)]
      else []
  | None => []
  end.

(** The finished slide of one line (single style) and of one group of
    lines (three-lines style). *)
Definition single_slide (path_exists : pystr → bool)
    (bg_image_path : option pystr) (line : DuaLine) : Slide :=
  {| layout := blank_layout;
     shapes :=
       background_shapes path_exists bg_image_path ++
       [ overlay new_presentation;
         TextBox (Inches10 52) (Inches10 25) (Inches10 45) (Inches10 25)
           (mkTextFrame (Some true) (Some 1%Z) (rendered arabic_single [line]));
         TextBox (Inches10 3) (Inches10 25) (Inches10 45) (Inches10 25)
           (mkTextFrame (Some true) (Some 1%Z) (rendered english_single [line])) ] |}.

Definition three_slide (path_exists : pystr → bool)
    (bg_image_path : option pystr) (g : list DuaLine) : Slide :=
  {| layout := blank_layout;
     shapes :=
       background_shapes path_exists bg_image_path ++
       [ overlay new_presentation;
         TextBox (Inches10 52) (Inches10 10) (Inches10 45) (Inches10 55)
           (mkTextFrame (Some true) (Some 1%Z) (rendered arabic_three g));
         TextBox (Inches10 3) (Inches10 10) (Inches10 45) (Inches10 55)
           (mkTextFrame (Some true) (Some 1%Z) (rendered english_three g)) ] |}.

(** A presentation of the fixed size with the given slides. *)
Definition presentation_of (sl : list Slide) : Presentation :=
  {| slide_width := Inches10 100; slide_height := Inches10 75; slides := sl |}.

(** A slide shows the lines [g] with font sizes [sa] and [se] when it has
    exactly two text frames, an Arabic one and an English one, each with
    exactly one paragraph per line of [g], in the order of [g], carrying
    the text of that line: the Arabic paragraphs right-aligned, bold and
    of size [sa]; the English ones left-aligned and of size [se]. *)
Definition shows (sa se : Z) (slide : Slide) (g : list DuaLine) : Prop :=
  ∃ fa fe,
    text_frames slide = [fa; fe] ∧
    Forall2 (fun p line =>
               text p = arabic line ∧ alignment p = Some RIGHT ∧
               font_bold p = Some true ∧ font_size p = Some sa)
            (paragraphs fa) g ∧
    Forall2 (fun q line =>
               text q = translation line ∧ alignment q = Some LEFT ∧
               font_size q = Some se)
            (paragraphs fe) g.

(** The lines read back from a slide: the paragraph texts of its Arabic
    frame paired, in order, with those of its English frame. *)
Definition slide_lines (slide : Slide) : list DuaLine :=
  match text_frames slide with
  | [fa; fe] => zip_with mkDuaLine (text <$> paragraphs fa) (text <$> paragraphs fe)
  | _ => []
  end.

(** Whether index [i] of the two element lists gives a line: both
    elements are there and both texts are non-empty. *)
Definition survives (arabic_divs translation_divs : list PageElement) (i : nat) : bool :=
  match arabic_divs !! i, translation_divs !! i with
  | Some a, Some t => truthy (get_text_strip a) && truthy (get_text_strip t)
  | _, _ => false
  end.

(** Index [i] of the two element lists is the origin of [line]: its two
    texts are those of the [i]-th element of each list. *)
Definition origin (arabic_divs translation_divs : list PageElement)
    (i : nat) (line : DuaLine) : Prop :=
  ∃ a t, arabic_divs !! i = Some a ∧ translation_divs !! i = Some t ∧
         arabic line = get_text_strip a ∧
         translation line = get_text_strip t.

(** A title element: a tag named [ptitle]. *)
Definition is_ptitle (e : PageElement) : Prop :=
  ∃ cl cs, e = Tag (lit "ptitle") cl cs.

(** The shapes of a slide that are not pictures, and the files of those
    that are. *)
Definition is_picture (sh : Shape) : bool :=
  match sh with Picture _ _ _ _ _ => true | _ => false end.

Definition picture_files (slide : Slide) : list pystr :=
  omap (fun sh => match sh with Picture f _ _ _ _ => Some f | _ => None end)
       (shapes slide).

Definition other_shapes (slide : Slide) : list Shape :=
  List.filter (fun sh => negb (is_picture sh)) (shapes slide).

(** [<div class="cls">text</div>], for the examples. *)
Definition div_of (cls text : string) : PageElement :=
  Tag (lit "div") [lit cls] [NavigableString (lit text)].

(** A string starts clean when it does not begin with a space, and ends
    clean when it does not end with one. *)
Definition starts_clean (s : pystr) : Prop :=
  match s with [] => True | c :: _ => isspace c = false end.

Definition ends_clean (s : pystr) : Prop := starts_clean (reverse s).

(** ** The conversation handlers *)

(** The handlers talk to the outside: they send replies, fetch a page,
    download and rewrite an image file. They are modelled as functions on
    a [World] that holds what they can change, in a monad that threads
    the world and lets a call raise an exception; the world reached when
    an exception is raised is kept, as in Python. What an outside call
    does is not known: an [Env] answers, for each call, whether it raises
    and with what text. Logging is not modelled. *)

(** [context.user_data]. The handlers use the keys ['dua_lines'] and
    ['title'] and no other; each is a field that is absent or present. *)
Record UserData : Type := mkUserData {
  ud_dua_lines : option (list DuaLine);
  ud_title : option pystr
}.

(** [context.user_data.clear()] leaves the empty dict. *)
Definition no_user_data : UserData :=
  {| ud_dua_lines := None; ud_title := None |}.

(** What has gone out: page requests, text replies and documents. *)
Inductive Event : Type :=
| HttpGet (url : pystr)
| ReplyText (text : pystr)
| ReplyDocument (document : Presentation) (filename caption : pystr).

Record World : Type := mkWorld {
  user_data : UserData;
  files : pystr → bool;          (* [os.path.exists] *)
  trace : list Event
}.

Record Env : Type := mkEnv {
  (** [requests.get], [raise_for_status] and [BeautifulSoup]: the text of
      the exception, or the parsed page. *)
  fetch : pystr → pystr + PageElement;
  (** A reply, given what has gone out before: the exception, if any. *)
  send_error : list Event → Event → option pystr;
  (** [context.bot.get_file(file_id)] *)
  get_file_error : pystr → option pystr;
  (** [file.download_to_drive(path)] *)
  download_error : pystr → option pystr;
  (** [Image.open(path)], [resize] and [save(path)] *)
  image_error : pystr → option pystr;
  (** [slide.shapes.add_picture(path, ...)] inside the builders *)
  picture_error : pystr → option pystr;
  (** [prs.save(BytesIO())] *)
  save_error : Presentation → option pystr;
  (** [os.remove(path)] *)
  remove_error : pystr → option pystr
}.

Inductive outcome (A : Type) : Type :=
| Return (a : A)
| Raise (e : pystr).
Arguments Return {A} a.
Arguments Raise {A} e.

Definition Bot (A : Type) : Type := World → outcome A * World.

Definition ret {A : Type} (a : A) : Bot A := fun w => (Return a, w).

Definition raise {A : Type} (e : pystr) : Bot A := fun w => (Raise e, w).

Definition bind {A B : Type} (m : Bot A) (k : A → Bot B) : Bot B :=
  fun w =>
    match m w with
    | (Return a, w') => k a w'
    | (Raise e, w') => (Raise e, w')
    end.

Notation "'let*' x := m 'in' k" := (bind m (fun x => k))
  (at level 10, x pattern, m at level 100, k at level 200).

(** [try: body except Exception as e: handler], with [str(e)] for [e]. *)
Definition try_except {A : Type} (body : Bot A) (handler : pystr → Bot A) : Bot A :=
  fun w =>
    match body w with
    | (Return a, w') => (Return a, w')
    | (Raise e, w') => handler e w'
    end.

(** An outside call without effect on the world. *)
Definition outside (error : option pystr) : Bot unit :=
  match error with
  | Some e => raise e
  | None => ret tt
  end.

(** A reply: it goes out, or the call raises and nothing goes out. *)
Definition send (env : Env) (ev : Event) : Bot unit :=
  fun w =>
    match send_error env (trace w) ev with
    | Some e => (Raise e, w)
    | None =>
        (Return tt,
         {| user_data := user_data w; files := files w;
            trace := trace w ++ [ev] |})
    end.

Definition reply_text (env : Env) (text : pystr) : Bot unit :=
  send env (ReplyText text).

Definition reply_document (env : Env) (document : Presentation)
    (filename caption : pystr) : Bot unit :=
  send env (ReplyDocument document filename caption).

Definition get_user_data : Bot UserData := fun w => (Return (user_data w), w).

Definition set_user_data (ud : UserData) : Bot unit :=
  fun w => (Return tt, {| user_data := ud; files := files w; trace := trace w |}).

Definition path_exists_now : Bot (pystr → bool) := fun w => (Return (files w), w).

Definition set_file (path : pystr) (present : bool) : Bot unit :=
  fun w =>
    (Return tt,
     {| user_data := user_data w;
        files := fun p => if decide (p = path) then present else files w p;
        trace := trace w |}).

(** Whether [add_picture] can read a file, as the environment has it. *)
Definition picture_ok_in (env : Env) (path : pystr) : bool :=
  match picture_error env path with
  | Some _ => false
  | None => true
  end.

(** A builder called from a handler, with the path of its background:
    when the builder raises, the exception is that of [add_picture]. *)
Definition built (env : Env) (path : pystr) (prs : option Presentation)
  : Bot Presentation :=
  match prs with
  | Some p => ret p
  | None =>
      raise (default (lit "list index out of range") (picture_error env path))
  end.

(** [scrape_dua(url)], lines 30-59: the request goes out, the page is
    parsed and read by [scrape_dua]; any exception is raised again. *)
Definition scrape_dua_from_url (env : Env) (url : pystr)
  : Bot (list DuaLine * pystr) :=
  fun w =>
    let w' := {| user_data := user_data w; files := files w;
                 trace := trace w ++ [HttpGet url] |} in
    match fetch env url with
    | inl e => (Raise e, w')
    | inr soup =>
        match scrape_dua soup with
        | Some result => (Return result, w')
        | None => (Raise (lit "list index out of range"), w')
        end
    end.

(** Line 23 and [ConversationHandler.END]. *)
Definition WAITING_LINK : Z := 0.
Definition WAITING_IMAGE : Z := 1.
Definition END : Z := (-1).

Record PhotoSize : Type := mkPhotoSize { file_id : pystr }.

(** What the handlers read of an update. A message without text has
    [None] as its text; a message without photo has the empty tuple. *)
Record Update : Type := mkUpdate {
  message_text : option pystr;
  message_photo : list PhotoSize;
  effective_user_id : Z
}.

(** [str(n)] for an [int]. *)
Definition py_str_int (n : Z) : pystr :=
  lit (NilZero.string_of_int (Z.to_int n)).

(** [s.startswith(prefix)] *)
Fixpoint startswith (s prefix : pystr) : bool :=
  match prefix, s with
  | [], _ => true
  | p :: prefix', c :: s' => (c =? p)%N && startswith s' prefix'
  | _ :: _, [] => false
  end.

Definition nl : pystr := [10%N].
Definition cross_mark : pystr := [10060%N].
Definition arrows : pystr := [128260%N].
Definition check_mark : pystr := [9989%N].
Definition camera : pystr := [128247%N].
Definition page : pystr := [128196%N].
Definition mosque : pystr := [128332%N].

(** The texts of the replies, lines 219-221, 232-233, 237, 244-245,
    254-255, 262-263, 270, 273, 309, 315, 325-327, 335-336 and 344. *)
Definition welcome_text : pystr :=
  mosque ++ lit " Welcome to the Duas.org to PPTX Bot!" ++ nl ++ nl ++
  lit "Send me a link from duas.org (e.g., https://www.duas.org/kumayl.html)" ++
  nl ++ nl ++
  lit "Use /cancel to stop the process at any time.".

Definition invalid_link_text : pystr :=
  cross_mark ++ lit " Please send a valid duas.org link." ++ nl ++
  lit "Example: https://www.duas.org/kumayl.html".

Definition scraping_text : pystr :=
  arrows ++ lit " Scraping dua content...".

Definition no_content_text : pystr :=
  cross_mark ++ lit " Could not extract dua content from this page. " ++
  lit "Please make sure the link contains a valid dua.".

Definition found_text (dua_lines : list DuaLine) (title : pystr) : pystr :=
  check_mark ++ lit " Found " ++ py_str_int (Z.of_nat (length dua_lines)) ++
  lit " lines from: " ++ title ++ nl ++ nl ++
  camera ++ lit " Now send me a background image for the slides.".

Definition scrape_error_text (e : pystr) : pystr :=
  cross_mark ++ lit " Error scraping the dua: " ++ e ++ nl ++
  lit "Please try again with a different link.".

Definition need_image_text : pystr :=
  cross_mark ++ lit " Please send an image file.".

Definition processing_text : pystr :=
  arrows ++ lit " Processing image and generating presentations...".

Definition single_caption : pystr :=
  page ++ lit " Single line per slide version".

Definition three_caption : pystr :=
  page ++ lit " Three lines per slide version".

Definition done_text : pystr :=
  check_mark ++ lit " Done! Your presentations are ready." ++ nl ++ nl ++
  lit "Send another duas.org link to create more presentations, " ++
  lit "or use /cancel to stop.".

Definition generation_error_text (e : pystr) : pystr :=
  cross_mark ++ lit " Error generating presentations: " ++ e ++ nl ++
  lit "Please try again.".

Definition cancelled_text : pystr :=
  cross_mark ++ lit " Operation cancelled. Use /start to begin again.".

(** [start], lines 216-223. *)
Definition start (env : Env) (update : Update) : Bot Z :=
  let* _ := reply_text env welcome_text in
  ret WAITING_LINK.

(** [receive_link], lines 225-265. *)
Definition receive_link (env : Env) (update : Update) : Bot Z :=
  let* url :=
    match message_text update with
    | Some text => ret (strip text)
    | None => raise (lit "'NoneType' object has no attribute 'strip'")
    end in
  if negb (startswith url (lit "https://www.duas.org/")) &&
     negb (startswith url (lit "http://www.duas.org/"))
  then
    let* _ := reply_text env invalid_link_text in
    ret WAITING_LINK
  else
    let* _ := reply_text env scraping_text in
    try_except
      (let* (dua_lines, title) := scrape_dua_from_url env url in
       match dua_lines with
       | [] =>
           let* _ := reply_text env no_content_text in
           ret WAITING_LINK
       | _ :: _ =>
           let* ud := get_user_data in
           let* _ := set_user_data
             {| ud_dua_lines := Some dua_lines; ud_title := ud_title ud |} in
           let* ud := get_user_data in
           let* _ := set_user_data
             {| ud_dua_lines := ud_dua_lines ud; ud_title := Some title |} in
           let* _ := reply_text env (found_text dua_lines title) in
           ret WAITING_IMAGE
       end)
      (fun e =>
         let* _ := reply_text env (scrape_error_text e) in
         ret WAITING_LINK).

(** Line 281: [f"temp_bg_{update.effective_user.id}.jpg"]. *)
Definition image_path_of (update : Update) : pystr :=
  lit "temp_bg_" ++ py_str_int (effective_user_id update) ++ lit ".jpg".

(** [receive_image], lines 267-338. A download that goes through leaves
    the file at its path, where the image is then rewritten in place; the
    document that is sent is the presentation that was saved into the
    buffer. *)
Definition receive_image (env : Env) (update : Update) : Bot Z :=
  match message_photo update with
  | [] =>
      let* _ := reply_text env need_image_text in
      ret WAITING_IMAGE
  | _ :: _ =>
      let* _ := reply_text env processing_text in
      try_except
        (let* photo :=
           match list.last (message_photo update) with
           | Some photo => ret photo
           | None => raise (lit "tuple index out of range")
           end in
         let* _ := outside (get_file_error env (file_id photo)) in
         let image_path := image_path_of update in
         let* _ := outside (download_error env image_path) in
         let* _ := set_file image_path true in
         let* _ := outside (image_error env image_path) in
         let* ud := get_user_data in
         let dua_lines := default [] (ud_dua_lines ud) in
         let title := default (lit "Dua") (ud_title ud) in
         let* path_exists := path_exists_now in
         let* prs_single :=
           built env image_path
             (create_pptx_single_line path_exists (picture_ok_in env)
                dua_lines title (Some image_path)) in
         let* _ := outside (save_error env prs_single) in
         let* path_exists := path_exists_now in
         let* prs_three :=
           built env image_path
             (create_pptx_three_lines path_exists (picture_ok_in env)
                dua_lines title (Some image_path)) in
         let* _ := outside (save_error env prs_three) in
         let* _ := reply_document env prs_single (single_filename title)
                     single_caption in
         let* _ := reply_document env prs_three (three_filename title)
                     three_caption in
         let* path_exists := path_exists_now in
         let* _ :=
           if path_exists image_path
           then let* _ := outside (remove_error env image_path) in
                set_file image_path false
           else ret tt in
         let* _ := set_user_data no_user_data in
         let* _ := reply_text env done_text in
         ret WAITING_LINK)
        (fun e =>
           let* _ := reply_text env (generation_error_text e) in
           ret WAITING_IMAGE)
  end.

(** [cancel], lines 340-346. *)
Definition cancel (env : Env) (update : Update) : Bot Z :=
  let* _ := set_user_data no_user_data in
  let* _ := reply_text env cancelled_text in
  ret END.

(** ** A quiet environment, for the examples *)

(** Nothing fails, and every request is answered with [soup]. *)
Definition quiet_env (soup : PageElement) : Env :=
  {| fetch := fun _ => inr soup;
     send_error := fun _ _ => None;
     get_file_error := fun _ => None;
     download_error := fun _ => None;
     image_error := fun _ => None;
     picture_error := fun _ => None;
     save_error := fun _ => None;
     remove_error := fun _ => None |}.

Definition sample_page : PageElement :=
  Tag (lit "[document]") []
    [Tag (lit "ptitle") [] [NavigableString (lit " Dua Kumayl ")];
     div_of "Ara" "a0"; div_of "Tra" "t0";
     div_of "Ara" "a1"; div_of "Tra" "t1";
     div_of "Ara" "a2"; div_of "Tra" "t2";
     div_of "Ara" "a3"; div_of "Tra" "t3"].

Definition new_world : World :=
  {| user_data := no_user_data; files := fun _ => false; trace := [] |}.

Definition link_update : Update :=
  {| message_text := Some (lit " https://www.duas.org/kumayl.html ");
     message_photo := []; effective_user_id := 42 |}.

Definition photo_update : Update :=
  {| message_text := None;
     message_photo := [mkPhotoSize (lit "small"); mkPhotoSize (lit "large")];
     effective_user_id := 42 |}.

(** As [quiet_env], but the image cannot be opened. *)
Definition bad_image_env (soup : PageElement) : Env :=
  {| fetch := fun _ => inr soup;
     send_error := fun _ _ => None;
     get_file_error := fun _ => None;
     download_error := fun _ => None;
     image_error := fun _ => Some (lit "cannot identify image file");
     picture_error := fun _ => None;
     save_error := fun _ => None;
     remove_error := fun _ => None |}.

(** [<div class="Ara">In the name <b>of</b> Allah</div>], and a page with
    it and one translation. *)
Definition mixed_div : PageElement :=
  Tag (lit "div") [lit "Ara"]
    [NavigableString (lit "In the name ");
     Tag (lit "b") [] [NavigableString (lit "of")];
     NavigableString (lit " Allah")].

Definition mixed_page : PageElement :=
  Tag (lit "[document]") [] [mixed_div; div_of "Tra" "t0"].

(** [<ptitle> Dua <b> Kumayl </b></ptitle>], and a page with it. *)
Definition mixed_title : PageElement :=
  Tag (lit "ptitle") []
    [NavigableString (lit " Dua ");
     Tag (lit "b") [] [NavigableString (lit " Kumayl ")]].

Definition mixed_title_page : PageElement :=
  Tag (lit "[document]") [] [mixed_title].

(** Four lines, a background path, and two answers about paths: yes for
    every path, no for every path. *)
Definition sample_lines : list DuaLine :=
  [mkDuaLine (lit "a0") (lit "t0"); mkDuaLine (lit "a1") (lit "t1");
   mkDuaLine (lit "a2") (lit "t2"); mkDuaLine (lit "a3") (lit "t3")].

Definition sample_bg : option pystr := Some (lit "bg.jpg").

Definition every_path : pystr → bool := fun _ => true.

Definition no_path : pystr → bool := fun _ => false.

(** The world after a link has been accepted. *)
Definition world_with_lines : World :=
  {| user_data :=
       {| ud_dua_lines := Some [mkDuaLine (lit "a0") (lit "t0");
                                mkDuaLine (lit "a1") (lit "t1")];
          ud_title := Some (lit "Dua Kumayl") |};
     files := fun _ => false;
     trace := [] |}.

(** * Properties *)

(** ** Stripping *)

Section Strip.

Implicit Types s t : pystr.

Lemma lstrip_starts_clean s : starts_clean (lstrip s).
Proof.
  induction s as [|c s IH]; simpl; [done|].
  destruct (isspace c) eqn:Hc; [done|]. by simpl.
Qed.

Lemma lstrip_fixed s : starts_clean s → lstrip s = s.
Proof. destruct s as [|c s]; simpl; [done|]. by intros ->. Qed.

Lemma lstrip_suffix s : ∃ t, s = t ++ lstrip s.
Proof.
  induction s as [|c s [t Ht]]; simpl.
  - by exists [].
  - destruct (isspace c).
    + exists (c :: t). simpl. by f_equal.
    + by exists [].
Qed.

Lemma rstrip_prefix s : ∃ t, s = rstrip s ++ t.
Proof.
  unfold rstrip. destruct (lstrip_suffix (reverse s)) as [t Ht].
  exists (reverse t).
  rewrite <- reverse_app, <- Ht. by rewrite reverse_involutive.
Qed.

Lemma rstrip_ends_clean s : ends_clean (rstrip s).
Proof.
  unfold ends_clean, rstrip. rewrite reverse_involutive.
  apply lstrip_starts_clean.
Qed.

Lemma rstrip_fixed s : ends_clean s → rstrip s = s.
Proof.
  unfold ends_clean, rstrip. intros H.
  rewrite (lstrip_fixed _ H). apply reverse_involutive.
Qed.

Lemma rstrip_starts_clean s : starts_clean s → starts_clean (rstrip s).
Proof.
  destruct (rstrip_prefix s) as [t Ht]. intros H.
  destruct (rstrip s) as [|c r] eqn:E; [done|].
  rewrite Ht in H. by simpl in *.
Qed.

Lemma strip_clean s : starts_clean (strip s) ∧ ends_clean (strip s).
Proof.
  unfold strip. split.
  - apply rstrip_starts_clean, lstrip_starts_clean.
  - apply rstrip_ends_clean.
Qed.

Lemma strip_fixed s : starts_clean s → ends_clean s → strip s = s.
Proof.
  intros H1 H2. unfold strip. rewrite (lstrip_fixed _ H1).
  by apply rstrip_fixed.
Qed.

Lemma starts_clean_app s t :
  s ≠ [] → starts_clean s → starts_clean (s ++ t).
Proof. by destruct s. Qed.

Lemma ends_clean_app s t :
  t ≠ [] → ends_clean t → ends_clean (s ++ t).
Proof.
  unfold ends_clean. intros Ht H. rewrite reverse_app.
  apply starts_clean_app; [|done].
  intros E. apply Ht. by rewrite <- (reverse_involutive t), E.
Qed.

(** Joining stripped, non-empty pieces gives a stripped string. *)
Lemma concat_clean (l : list pystr) :
  Forall (fun s => s ≠ [] ∧ starts_clean s ∧ ends_clean s) l →
  starts_clean (concat l) ∧ ends_clean (concat l).
Proof.
  induction 1 as [|s l (Hne & Hs & He) _ [IHs IHe]]; simpl.
  - by split.
  - split.
    + by apply starts_clean_app.
    + destruct (concat l) as [|c r] eqn:E.
      * by rewrite app_nil_r.
      * by apply ends_clean_app.
Qed.

Lemma truthy_nonempty s : truthy s = true ↔ s ≠ [].
Proof. by destruct s. Qed.

Lemma lstrip_spaces s : Forall (fun c => isspace c = true) s → lstrip s = [].
Proof. induction 1 as [|c s Hc _ IH]; simpl; [done|]. by rewrite Hc. Qed.

Lemma strip_spaces s : Forall (fun c => isspace c = true) s → strip s = [].
Proof. intros H. unfold strip. by rewrite (lstrip_spaces _ H). Qed.

Lemma lstrip_nil s : lstrip s = [] → Forall (fun c => isspace c = true) s.
Proof.
  induction s as [|c s IH]; simpl; [done|].
  destruct (isspace c) eqn:Hc; [|done]. intros H. constructor; auto.
Qed.

(** Stripping leaves nothing exactly when there is only white space. *)
Lemma strip_nil s : strip s = [] ↔ Forall (fun c => isspace c = true) s.
Proof.
  split; [|apply strip_spaces].
  unfold strip, rstrip. intros H.
  apply (f_equal reverse) in H. rewrite reverse_involutive in H.
  apply lstrip_nil in H. apply (proj1 (Forall_reverse _ _)) in H.
  pose proof (lstrip_starts_clean s) as Hc.
  destruct (lstrip s) as [|c r] eqn:E; [by apply lstrip_nil|].
  inversion H as [|? ? Hsp _]. simpl in Hc. congruence.
Qed.

End Strip.

(** ** Text of an element *)

Lemma get_text_strip_clean e :
  starts_clean (get_text_strip e) ∧ ends_clean (get_text_strip e).
Proof.
  unfold get_text_strip. apply concat_clean.
  apply Forall_forall. intros s Hs.
  apply filter_In in Hs as [Hin Ht].
  apply truthy_nonempty in Ht. split; [done|].
  apply (proj2 (list_elem_of_In _ _)), list_elem_of_fmap in Hin. destruct Hin as (s0 & -> & _).
  apply strip_clean.
Qed.

(** [DuaLine] strips a text that [get_text(strip=True)] has produced:
    nothing is left to remove. *)
Lemma strip_get_text_strip e : strip (get_text_strip e) = get_text_strip e.
Proof. destruct (get_text_strip_clean e). by apply strip_fixed. Qed.

Lemma get_text_strip_single name cl s :
  get_text_strip (Tag name cl [NavigableString s]) = strip s.
Proof.
  unfold get_text_strip, all_strings. simpl.
  destruct (strip s); simpl; [done|]. by rewrite app_nil_r.
Qed.

Lemma get_text_strip_blank e :
  Forall (fun c => isspace c = true) (get_text e) → get_text_strip e = [].
Proof.
  unfold get_text, get_text_strip.
  induction (all_strings e) as [|s l IH]; simpl; [done|].
  intros H. apply Forall_app in H as [Hs Hl].
  rewrite (strip_spaces _ Hs). simpl. by apply IH.
Qed.

(** [get_text(strip=True)] is empty exactly when the whole text of the
    element strips to nothing. *)
Lemma get_text_strip_nil e :
  get_text_strip e = [] ↔ strip (get_text e) = [].
Proof.
  rewrite strip_nil. split; [|apply get_text_strip_blank].
  unfold get_text, get_text_strip.
  induction (all_strings e) as [|s l IH]; simpl; [done|].
  destruct (strip s) as [|c r] eqn:E; simpl; [|done].
  intros H. apply Forall_app. split; [by apply strip_nil|by apply IH].
Qed.

(** ** The pairing loop *)

Lemma for_in_app {S A : Type} (xs ys : list A) (body : S → A → option S) st :
  for_in (xs ++ ys) body st = for_in xs body st ≫= for_in ys body.
Proof.
  revert st. induction xs as [|x xs IH]; intros st; simpl; [done|].
  destruct (body st x) as [st'|]; simpl; [apply IH|done].
Qed.

Section Pairing.

Variables arabic_divs translation_divs : list PageElement.

Lemma pair_step_kept dua_lines i :
  survives arabic_divs translation_divs i = true →
  ∃ line, pair_step arabic_divs translation_divs dua_lines i
            = Some (dua_lines ++ [line]) ∧
          origin arabic_divs translation_divs i line.
Proof.
  unfold survives, pair_step, origin.
  destruct (arabic_divs !! i) as [a|]; [|done].
  destruct (translation_divs !! i) as [t|]; [|done].
  simpl. intros ->. eexists. split; [done|].
  exists a, t. simpl. by rewrite !strip_get_text_strip.
Qed.

Lemma pair_step_dropped dua_lines i :
  i < length arabic_divs → i < length translation_divs →
  survives arabic_divs translation_divs i = false →
  pair_step arabic_divs translation_divs dua_lines i = Some dua_lines.
Proof.
  unfold survives, pair_step. intros Ha Ht.
  destruct (lookup_lt_is_Some_2 _ _ Ha) as [a ->].
  destruct (lookup_lt_is_Some_2 _ _ Ht) as [t ->].
  simpl. by intros ->.
Qed.

(** The loop never raises, and leaves one line per surviving index. *)
Lemma pair_loop n dua_lines :
  n ≤ length arabic_divs → n ≤ length translation_divs →
  ∃ lines,
    for_in (seq 0 n) (pair_step arabic_divs translation_divs) dua_lines
      = Some (dua_lines ++ lines) ∧
    Forall2 (origin arabic_divs translation_divs)
            (List.filter (survives arabic_divs translation_divs) (seq 0 n))
            lines.
Proof.
  induction n as [|n IH]; intros Ha Ht.
  - exists []. simpl. by rewrite app_nil_r.
  - destruct IH as (lines & Hrun & Horig); [lia..|].
    rewrite seq_S, for_in_app, Hrun, List.filter_app. simpl.
    destruct (survives arabic_divs translation_divs n) eqn:Hs.
    + destruct (pair_step_kept (dua_lines ++ lines) n Hs) as (line & -> & Ho).
      exists (lines ++ [line]). rewrite app_assoc. split; [done|].
      apply Forall2_app; [done|]. by constructor.
    + rewrite pair_step_dropped by (done || lia).
      exists lines. by rewrite app_nil_r.
Qed.

End Pairing.

(** An index whose two elements exist is dropped exactly when the text
    of one of them strips to nothing. *)
Lemma survives_false arabic_divs translation_divs i a t :
  arabic_divs !! i = Some a → translation_divs !! i = Some t →
  survives arabic_divs translation_divs i = false ↔
  strip (get_text a) = [] ∨ strip (get_text t) = [].
Proof.
  intros Ha Ht. unfold survives. rewrite Ha, Ht.
  rewrite <- !get_text_strip_nil, andb_false_iff.
  by destruct (get_text_strip a), (get_text_strip t); simpl; intuition.
Qed.

Lemma filter_length_le {A : Type} (f : A → bool) (l : list A) :
  length (List.filter f l) ≤ length l.
Proof.
  induction l as [|x l IH]; simpl; [done|].
  destruct (f x); simpl; lia.
Qed.

(** What [scrape_dua] returns, in one statement. *)
Lemma scrape_dua_returns soup :
  let arabic_divs := find_all (lit "div") (Some (lit "Ara")) soup in
  let translation_divs := find_all (lit "div") (Some (lit "Tra")) soup in
  ∃ lines,
    scrape_dua soup =
      Some (lines, match find (lit "ptitle") soup with
                   | Some e => get_text_strip e
                   | None => lit "Dua"
                   end) ∧
    Forall2 (origin arabic_divs translation_divs)
      (List.filter (survives arabic_divs translation_divs)
         (seq 0 (min (length arabic_divs) (length translation_divs))))
      lines.
Proof.
  intros A T. unfold scrape_dua. fold A T.
  destruct (pair_loop A T (min (length A) (length T)) []) as (lines & -> & H);
    [lia..|].
  exists lines. by split.
Qed.

(** ** Pagination *)

Section Pagination.

Context {A : Type}.
Implicit Types l : list A.

Lemma slice_take_drop l i k : slice l i (i + k) = take k (drop i l).
Proof. unfold slice. f_equal. lia. Qed.

(** Cutting [l] into [m] runs of [k] loses nothing when [m] runs are
    enough to cover [l]. *)
Lemma concat_runs k m l :
  length l ≤ m * k →
  concat ((fun j => take k (drop (j * k) l)) <$> seq 0 m) = l.
Proof.
  revert l. induction m as [|m IH]; intros l Hlen.
  - destruct l; [done|]. simpl in Hlen. lia.
  - simpl. rewrite <- fmap_S_seq, <- list_fmap_compose.
    transitivity (take k l ++ drop k l); [|apply take_drop].
    f_equal.
    rewrite <- (IH (drop k l)) by (rewrite length_drop; simpl in Hlen; lia).
    f_equal. apply list_fmap_ext. intros _ j _. simpl.
    by rewrite drop_drop.
Qed.

Lemma run_length k m l j :
  j < m → (m - 1) * k < length l →
  1 ≤ k →
  1 ≤ length (take k (drop (j * k) l)) ≤ k ∧
  (S j < m → length (take k (drop (j * k) l)) = k).
Proof.
  intros Hj Hm Hk. rewrite length_take, length_drop.
  assert (j * k ≤ (m - 1) * k) by (apply Nat.mul_le_mono_r; lia).
  split; [lia|].
  intros Hj'.
  assert (S j * k ≤ (m - 1) * k) by (apply Nat.mul_le_mono_r; lia).
  simpl in *. lia.
Qed.

End Pagination.

(** The number of runs that [range(0, n, k)] starts. *)
Lemma runs_cover n k : 1 ≤ k → n ≤ (n + (k - 1)) / k * k.
Proof.
  intros Hk.
  pose proof (Nat.mul_succ_div_gt (n + (k - 1)) k ltac:(lia)). lia.
Qed.

Lemma runs_tight n k :
  1 ≤ k → 1 ≤ n → ((n + (k - 1)) / k - 1) * k < n.
Proof.
  intros Hk Hn.
  pose proof (Nat.Div0.mul_div_le (n + (k - 1)) k).
  assert (1 ≤ (n + (k - 1)) / k).
  { apply Nat.div_le_lower_bound; lia. }
  nia.
Qed.

Lemma runs_zero k : 1 ≤ k → (0 + (k - 1)) / k = 0.
Proof. intros Hk. apply Nat.div_small. lia. Qed.

Lemma py_range_from_0 n k :
  1 ≤ k →
  py_range 0 n k = Some ((fun j => j * k) <$> seq 0 ((n + (k - 1)) / k)).
Proof.
  intros Hk. unfold py_range.
  destruct (decide (k = 0)); [lia|].
  by rewrite Nat.sub_0_r.
Qed.

(** [paginate] never raises for a group size of at least one, and its
    groups are the consecutive runs of length [k]. *)
Lemma paginate_runs (dua_lines : list DuaLine) k :
  1 ≤ k →
  paginate dua_lines k =
    Some ((fun j => take k (drop (j * k) dua_lines)) <$>
          seq 0 ((length dua_lines + (k - 1)) / k)).
Proof.
  intros Hk. unfold paginate. rewrite py_range_from_0 by done.
  f_equal. rewrite <- list_fmap_compose.
  apply list_fmap_ext. intros _ j _. simpl.
  apply (slice_take_drop dua_lines (j * k) k).
Qed.

Lemma paginate_one (dua_lines : list DuaLine) :
  paginate dua_lines 1 = Some ((fun line => [line]) <$> dua_lines).
Proof.
  rewrite paginate_runs by lia. f_equal.
  replace ((length dua_lines + (1 - 1)) / 1) with (length dua_lines)
    by (rewrite Nat.div_1_r; lia).
  induction dua_lines as [|line l IH]; [done|].
  cbn [length seq fmap list_fmap]. f_equal.
  rewrite <- IH, <- fmap_S_seq, <- list_fmap_compose.
  apply list_fmap_ext. intros _ j _. done.
Qed.

(** ** The builders *)

Lemma add_background_shapes path_exists picture_ok bg sl :
  usable path_exists picture_ok bg →
  add_background path_exists picture_ok bg (presentation_of sl)
    {| layout := blank_layout; shapes := [] |}
  = Some {| layout := blank_layout;
            shapes := background_shapes path_exists bg |}.
Proof.
  unfold usable, add_background, background_shapes.
  destruct bg as [path|]; [|done].
  destruct (truthy path && path_exists path); [|done].
  intros H. by rewrite H.
Qed.

Lemma add_background_unusable path_exists picture_ok bg prs slide :
  ¬ usable path_exists picture_ok bg →
  add_background path_exists picture_ok bg prs slide = None.
Proof.
  unfold usable, add_background.
  destruct bg as [path|]; [|by intros []].
  destruct (truthy path && path_exists path); [|by intros []].
  destruct (picture_ok path); [by intros []|done].
Qed.

Lemma with_paragraph_last upd (frame : list Paragraph) p :
  with_paragraph (length frame) upd (frame ++ [p]) = Some (frame ++ [upd p]).
Proof.
  unfold with_paragraph.
  rewrite lookup_app_r, Nat.sub_diag by lia. simpl.
  by rewrite insert_app_r_alt, Nat.sub_diag by lia.
Qed.

(** The paragraph loop from index [n] on, over a frame that already has
    [n] paragraphs: each line adds its own paragraph at the end. *)
Lemma fill_loop style (g : list DuaLine) n (frame : list Paragraph) :
  length frame = n → 0 < n →
  for_in (zip (seq n (length g)) g)
    (fun frame '(idx, line) =>
       let frame := if 0 <? idx then frame ++ [empty_paragraph] else frame in
       with_paragraph idx (style line) frame)
    frame
  = Some (frame ++ rendered style g).
Proof.
  revert n frame. induction g as [|line g IH]; intros n frame Hlen Hn.
  - simpl. by rewrite app_nil_r.
  - cbn [length seq zip zip_with for_in].
    destruct (Nat.ltb_spec 0 n) as [_|]; [|lia].
    subst n. rewrite with_paragraph_last. simpl.
    rewrite IH by (rewrite ?length_app; simpl; lia).
    by rewrite <- app_assoc.
Qed.

Lemma fill_frame_cons style line (g : list DuaLine) :
  fill_frame style (line :: g) = Some (rendered style (line :: g)).
Proof.
  unfold fill_frame, enumerate.
  cbn [length seq zip zip_with for_in]. simpl.
  apply (fill_loop style g 1 [style line empty_paragraph]); [done|lia].
Qed.

(** One turn of the slide loop of [create_pptx_single_line]. *)
Lemma single_line_step_slide path_exists picture_ok bg sl line :
  usable path_exists picture_ok bg →
  single_line_step path_exists picture_ok bg (presentation_of sl) line
  = Some (presentation_of (sl ++ [single_slide path_exists bg line])).
Proof.
  intros Hu. unfold single_line_step. rewrite add_background_shapes by done.
  cbn [with_paragraph lookup list_lookup mbind option_bind].
  unfold add_slide, add_shape, single_slide, presentation_of.
  cbn [slides shapes layout slide_width slide_height].
  by rewrite <- !app_assoc.
Qed.

(** With a usable background [create_pptx_single_line] does not raise; it
    makes one slide per line. *)
Lemma single_line_loop path_exists picture_ok bg (dua_lines : list DuaLine) sl :
  usable path_exists picture_ok bg →
  for_in dua_lines (single_line_step path_exists picture_ok bg)
    (presentation_of sl)
  = Some (presentation_of (sl ++ (single_slide path_exists bg <$> dua_lines))).
Proof.
  intros Hu. revert sl. induction dua_lines as [|line l IH]; intros sl.
  - simpl. by rewrite app_nil_r.
  - cbn [for_in]. rewrite single_line_step_slide by done.
    cbn [mbind option_bind]. rewrite IH. by rewrite <- app_assoc.
Qed.

Lemma create_pptx_single_line_slides path_exists picture_ok dua_lines title bg :
  usable path_exists picture_ok bg →
  create_pptx_single_line path_exists picture_ok dua_lines title bg
  = Some (presentation_of (single_slide path_exists bg <$> dua_lines)).
Proof. intros Hu. by apply (single_line_loop path_exists picture_ok bg dua_lines []). Qed.

Lemma single_line_step_raises path_exists picture_ok bg prs line :
  ¬ usable path_exists picture_ok bg →
  single_line_step path_exists picture_ok bg prs line = None.
Proof.
  intros Hu. unfold single_line_step. by rewrite add_background_unusable.
Qed.

(** With a background that cannot be read, the first slide raises. *)
Lemma create_pptx_single_line_raises path_exists picture_ok line dua_lines
    title bg :
  ¬ usable path_exists picture_ok bg →
  create_pptx_single_line path_exists picture_ok (line :: dua_lines) title bg
  = None.
Proof.
  intros Hu. unfold create_pptx_single_line. cbn [for_in].
  by rewrite single_line_step_raises.
Qed.

Lemma slice_cons (dua_lines : list DuaLine) i k :
  i < length dua_lines → 1 ≤ k →
  ∃ line g, slice dua_lines i (i + k) = line :: g.
Proof.
  intros Hi Hk. rewrite slice_take_drop.
  destruct (take k (drop i dua_lines)) as [|line g] eqn:E; [|by eauto].
  apply (f_equal length) in E.
  rewrite length_take, length_drop in E. simpl in E. lia.
Qed.

(** The starts of [range(0, n, k)] are positions of the list. *)
Lemma py_range_starts n k starts :
  1 ≤ k → py_range 0 n k = Some starts → Forall (fun i => i < n) starts.
Proof.
  intros Hk. rewrite py_range_from_0 by done. intros [= <-].
  apply Forall_fmap, Forall_forall. intros j Hj. simpl.
  apply in_seq in Hj as [_ Hj]. simpl in Hj.
  destruct (decide (n = 0)) as [->|Hn].
  - rewrite runs_zero in Hj by done. lia.
  - pose proof (runs_tight n k Hk ltac:(lia)).
    assert (j * k ≤ ((n + (k - 1)) / k - 1) * k)
      by (apply Nat.mul_le_mono_r; lia).
    lia.
Qed.

(** One turn of the slide loop of [create_pptx_three_lines], at a start
    position inside the list. *)
Lemma three_lines_step_slide path_exists picture_ok bg
    (dua_lines : list DuaLine) sl i :
  usable path_exists picture_ok bg →
  i < length dua_lines →
  three_lines_step path_exists picture_ok dua_lines bg (presentation_of sl) i
  = Some (presentation_of
            (sl ++ [three_slide path_exists bg (slice dua_lines i (i + 3))])).
Proof.
  intros Hu Hi. unfold three_lines_step. rewrite add_background_shapes by done.
  destruct (slice_cons dua_lines i 3 Hi ltac:(lia)) as (line & g & Hg).
  cbn [mbind option_bind]. cbn zeta. rewrite Hg, !fill_frame_cons.
  cbn [mbind option_bind].
  unfold add_slide, add_shape, three_slide, presentation_of.
  cbn [slides shapes layout slide_width slide_height].
  by rewrite <- !app_assoc.
Qed.

(** The slide loop of [create_pptx_three_lines] over any list of start
    positions: with a usable background it does not raise and makes one
    slide per start. *)
Lemma three_lines_loop path_exists picture_ok bg (dua_lines : list DuaLine)
    starts sl :
  usable path_exists picture_ok bg →
  Forall (fun i => i < length dua_lines) starts →
  for_in starts (three_lines_step path_exists picture_ok dua_lines bg)
    (presentation_of sl)
  = Some (presentation_of
            (sl ++ (three_slide path_exists bg <$>
                      ((fun i => slice dua_lines i (i + 3)) <$> starts)))).
Proof.
  intros Hu Hstarts. revert sl.
  induction Hstarts as [|i starts Hi _ IH]; intros sl.
  - simpl. by rewrite app_nil_r.
  - cbn [for_in]. rewrite three_lines_step_slide by done.
    cbn [mbind option_bind]. rewrite IH. by rewrite <- app_assoc.
Qed.

(** With a usable background [create_pptx_three_lines] does not raise; it
    makes one slide per group of [paginate dua_lines 3]. *)
Lemma create_pptx_three_lines_slides path_exists picture_ok dua_lines title bg :
  usable path_exists picture_ok bg →
  ∃ groups,
    paginate dua_lines 3 = Some groups ∧
    create_pptx_three_lines path_exists picture_ok dua_lines title bg
    = Some (presentation_of (three_slide path_exists bg <$> groups)).
Proof.
  intros Hu. unfold paginate, create_pptx_three_lines.
  destruct (py_range 0 (length dua_lines) 3) as [starts|] eqn:E.
  - eexists. split; [reflexivity|].
    apply (three_lines_loop path_exists picture_ok bg dua_lines starts []);
      [done|].
    apply (py_range_starts _ 3 starts); [lia|exact E].
  - rewrite py_range_from_0 in E by lia. done.
Qed.

Lemma three_lines_step_raises path_exists picture_ok dua_lines bg prs i :
  ¬ usable path_exists picture_ok bg →
  three_lines_step path_exists picture_ok dua_lines bg prs i = None.
Proof.
  intros Hu. unfold three_lines_step. by rewrite add_background_unusable.
Qed.

Lemma create_pptx_three_lines_raises path_exists picture_ok line dua_lines
    title bg :
  ¬ usable path_exists picture_ok bg →
  create_pptx_three_lines path_exists picture_ok (line :: dua_lines) title bg
  = None.
Proof.
  intros Hu. unfold create_pptx_three_lines.
  rewrite py_range_from_0 by lia. cbn [mbind option_bind].
  assert ((length (line :: dua_lines) + (3 - 1)) / 3
          = S (length dua_lines / 3)) as ->.
  { cbn [length]. replace (S (length dua_lines) + (3 - 1))
      with (length dua_lines + 1 * 3) by lia.
    rewrite Nat.div_add by lia. lia. }
  cbn [seq fmap list_fmap for_in].
  by rewrite three_lines_step_raises.
Qed.

(** Without lines nothing is asked of the background. *)
Lemma builders_no_lines path_exists picture_ok title bg :
  create_pptx_single_line path_exists picture_ok [] title bg
  = Some (presentation_of []) ∧
  create_pptx_three_lines path_exists picture_ok [] title bg
  = Some (presentation_of []).
Proof. by split. Qed.

(** ** Reading a slide *)

Lemma omap_background_text path_exists bg :
  omap (fun sh => match sh with TextBox _ _ _ _ f => Some f | _ => None end)
       (background_shapes path_exists bg) = [].
Proof.
  unfold background_shapes. destruct bg as [path|]; [|done].
  by destruct (truthy path && path_exists path).
Qed.

Lemma text_frames_single_slide path_exists bg line :
  text_frames (single_slide path_exists bg line) =
    [ mkTextFrame (Some true) (Some 1%Z) (rendered arabic_single [line]);
      mkTextFrame (Some true) (Some 1%Z) (rendered english_single [line]) ].
Proof.
  unfold text_frames, single_slide. cbn [shapes].
  by rewrite omap_app, omap_background_text.
Qed.

Lemma text_frames_three_slide path_exists bg g :
  text_frames (three_slide path_exists bg g) =
    [ mkTextFrame (Some true) (Some 1%Z) (rendered arabic_three g);
      mkTextFrame (Some true) (Some 1%Z) (rendered english_three g) ].
Proof.
  unfold text_frames, three_slide. cbn [shapes].
  by rewrite omap_app, omap_background_text.
Qed.

Lemma single_slide_shows path_exists bg line :
  shows (Pt 28) (Pt 24) (single_slide path_exists bg line) [line].
Proof.
  eexists _, _. split; [apply text_frames_single_slide|].
  split; by repeat constructor.
Qed.

Lemma three_slide_shows path_exists bg g :
  shows (Pt 22) (Pt 18) (three_slide path_exists bg g) g.
Proof.
  eexists _, _. split; [apply text_frames_three_slide|].
  cbn [paragraphs]. unfold rendered.
  split; apply Forall2_fmap_l, Forall_Forall2_diag, Forall_forall; by intros.
Qed.

(** ** The title element *)

Lemma matches_ptitle e :
  matches (lit "ptitle") None e = true ↔ is_ptitle e.
Proof.
  unfold is_ptitle. destruct e as [s|s|n cl cs]; simpl.
  - split; [done|]. by intros (? & ? & ?).
  - split; [done|]. by intros (? & ? & ?).
  - rewrite andb_true_r, bool_decide_eq_true. split.
    + intros ->. by eexists _, _.
    + by intros (? & ? & [= -> _ _]).
Qed.

Lemma find_absent soup :
  (∀ e, e ∈ descendants soup → ¬ is_ptitle e) →
  find (lit "ptitle") soup = None.
Proof.
  unfold find, find_all. intros H.
  induction (descendants soup) as [|x l IH]; [done|]. simpl.
  destruct (matches (lit "ptitle") None x) eqn:E.
  - apply matches_ptitle in E. destruct (H x); [left|done].
  - apply IH. intros e He. apply H. by right.
Qed.

Lemma find_first soup pre e post :
  descendants soup = pre ++ e :: post →
  is_ptitle e →
  (∀ x, x ∈ pre → ¬ is_ptitle x) →
  find (lit "ptitle") soup = Some e.
Proof.
  unfold find, find_all. intros -> He.
  induction pre as [|x pre IH]; intros Hpre; simpl.
  - apply matches_ptitle in He. by rewrite He.
  - destruct (matches (lit "ptitle") None x) eqn:E.
    + apply matches_ptitle in E. destruct (Hpre x); [left|done].
    + apply IH. intros y Hy. apply Hpre. by right.
Qed.

(** ** The lines of a document *)

Lemma origin_survivors arabic_divs translation_divs idxs lines :
  Forall (fun i => survives arabic_divs translation_divs i = true) idxs →
  Forall2 (origin arabic_divs translation_divs) idxs lines →
  Forall (fun line => strip (arabic line) ≠ [] ∧ strip (translation line) ≠ [])
         lines.
Proof.
  intros Hs H. induction H as [|i line idxs lines Ho _ IH]; [done|].
  inversion Hs as [|? ? Hi Hrest]; subst.
  constructor; [|by apply IH].
  destruct Ho as (a & t & Ha & Ht & -> & ->).
  unfold survives in Hi. rewrite Ha, Ht in Hi.
  apply andb_true_iff in Hi as [H1 H2].
  rewrite !strip_get_text_strip. split; by apply truthy_nonempty.
Qed.

Lemma filter_all {A : Type} (f : A → bool) (l : list A) :
  Forall (fun x => f x = true) (List.filter f l).
Proof.
  induction l as [|x l IH]; simpl; [done|].
  destruct (f x) eqn:E; [by constructor|done].
Qed.

Lemma scrape_dua_non_empty soup :
  ∃ lines title,
    scrape_dua soup = Some (lines, title) ∧
    Forall (fun line => strip (arabic line) ≠ [] ∧ strip (translation line) ≠ [])
           lines.
Proof.
  destruct (scrape_dua_returns soup) as (lines & Hrun & Ho).
  eexists _, _. split; [exact Hrun|].
  eapply origin_survivors; [|exact Ho]. apply filter_all.
Qed.

Lemma zip_with_fields (g : list DuaLine) :
  zip_with mkDuaLine (arabic <$> g) (translation <$> g) = g.
Proof.
  induction g as [|[a t] g IH]; [done|]. simpl. by f_equal.
Qed.

Lemma slide_lines_single_slide path_exists bg line :
  slide_lines (single_slide path_exists bg line) = [line].
Proof.
  unfold slide_lines. rewrite text_frames_single_slide. by destruct line.
Qed.

Lemma slide_lines_three_slide path_exists bg g :
  slide_lines (three_slide path_exists bg g) = g.
Proof.
  unfold slide_lines. rewrite text_frames_three_slide.
  cbn [paragraphs]. unfold rendered.
  rewrite <- !list_fmap_compose. apply zip_with_fields.
Qed.

Lemma concat_singletons {A : Type} (l : list A) :
  concat ((fun x => [x]) <$> l) = l.
Proof. induction l as [|x l IH]; [done|]. simpl. by f_equal. Qed.

(** * The claims *)

(** C1 (pairing alignment), as amended. For every parsed page, with [p]
    elements of class [Ara] and [t] elements of class [Tra], [scrape_dua]
    returns (it does not raise) at most [min p t] lines. The lines are,
    in order, those of the indices below [min p t] that survive, an index
    being dropped exactly when the trimmed text of one of its two
    elements is empty; and the line of a surviving index [i] has the text
    of the [i]-th [Ara] element as its Arabic text and the text of the
    [i]-th [Tra] element as its translation, with [i] counted in the
    original lists: a dropped index shifts neither list. The text of an
    element is what [get_text(strip=True)] returns: its text nodes, each
    trimmed, the empty ones left out, joined without separator; for an
    element that holds one text node this is its trimmed text. *)
Theorem pairing_alignment (soup : PageElement) :
  let arabic_divs := find_all (lit "div") (Some (lit "Ara")) soup in
  let translation_divs := find_all (lit "div") (Some (lit "Tra")) soup in
  let n := min (length arabic_divs) (length translation_divs) in
  ∃ lines title,
    scrape_dua soup = Some (lines, title) ∧
    length lines ≤ n ∧
    Forall2 (origin arabic_divs translation_divs)
            (List.filter (survives arabic_divs translation_divs) (seq 0 n))
            lines ∧
    (∀ i a t,
       arabic_divs !! i = Some a → translation_divs !! i = Some t →
       survives arabic_divs translation_divs i = false ↔
       strip (get_text a) = [] ∨ strip (get_text t) = []) ∧
    (∀ e, get_text_strip e
          = concat (List.filter truthy (strip <$> all_strings e))) ∧
    (∀ name cl s,
       get_text_strip (Tag name cl [NavigableString s])
       = strip (get_text (Tag name cl [NavigableString s]))).
Proof.
  intros A T n.
  destruct (scrape_dua_returns soup) as (lines & Hrun & Ho).
  fold A T n in Ho.
  eexists _, _. split; [exact Hrun|].
  split; [|split; [exact Ho|split; [apply survives_false|split]]].
  - rewrite <- (Forall2_length Ho).
    etransitivity; [apply filter_length_le|]. by rewrite length_seq.
  - done.
  - intros name cl s. rewrite get_text_strip_single.
    unfold get_text, all_strings. simpl. by rewrite app_nil_r.
Qed.

Lemma pairing_alignment_witness :
  ∃ lines title,
    scrape_dua (Tag (lit "[document]") []
                  [div_of "Ara" "a0"; div_of "Tra" " ";
                   div_of "Ara" "a1"; div_of "Tra" "t1"; div_of "Ara" "a2"])
    = Some (lines, title) ∧
    length lines ≤ 2.
Proof.
  destruct (pairing_alignment
              (Tag (lit "[document]") []
                 [div_of "Ara" "a0"; div_of "Tra" " ";
                  div_of "Ara" "a1"; div_of "Tra" "t1"; div_of "Ara" "a2"]))
    as (lines & title & Hrun & Hlen & _).
  exists lines, title. split; [exact Hrun|exact Hlen].
Defined.

(** C1 as it was worded fails: the Arabic text of a line is not always
    the trimmed text of its element. For the element
    [In the name <b>of</b> Allah] the line has [In the nameofAllah], and
    the trimmed text of the element is [In the name of Allah]. *)
Lemma pairing_alignment_counterexample :
  find_all (lit "div") (Some (lit "Ara")) mixed_page = [mixed_div] ∧
  scrape_dua mixed_page
  = Some ([mkDuaLine (lit "In the nameofAllah") (lit "t0")], lit "Dua") ∧
  strip (get_text mixed_div) = lit "In the name of Allah" ∧
  lit "In the nameofAllah" ≠ strip (get_text mixed_div).
Proof.
  split; [reflexivity|]. split; [reflexivity|]. split; [reflexivity|].
  vm_compute. discriminate.
Qed.

(** C4 (non-empty invariant). Every line that [scrape_dua] returns has a
    non-empty Arabic text and a non-empty translation after stripping, and
    so has every paragraph that either builder, given a background it can
    use, puts on a slide for these lines: no empty line is made or passed
    on. *)
Theorem lines_non_empty (soup : PageElement)
    (path_exists picture_ok : pystr → bool) (bg : option pystr) :
  ∃ lines title,
    scrape_dua soup = Some (lines, title) ∧
    Forall (fun line => strip (arabic line) ≠ [] ∧ strip (translation line) ≠ [])
           lines ∧
    (usable path_exists picture_ok bg →
     ∃ prs1 prs3,
       create_pptx_single_line path_exists picture_ok lines title bg
       = Some prs1 ∧
       create_pptx_three_lines path_exists picture_ok lines title bg
       = Some prs3 ∧
       Forall (fun slide =>
                 Forall (fun line => strip (arabic line) ≠ [] ∧
                                     strip (translation line) ≠ [])
                        (slide_lines slide) ∧
                 Forall (fun f => Forall (fun p => strip (text p) ≠ [])
                                         (paragraphs f))
                        (text_frames slide))
              (slides prs1 ++ slides prs3)).
Proof.
  destruct (scrape_dua_non_empty soup) as (lines & title & Hrun & Hne).
  exists lines, title.
  split; [exact Hrun|]. split; [exact Hne|]. intros Hu.
  destruct (create_pptx_three_lines_slides path_exists picture_ok lines title
              bg Hu) as (groups & Hg & H3).
  eexists _, _.
  split; [by apply create_pptx_single_line_slides|]. split; [exact H3|].
  assert (Hgroups : Forall (fun g => Forall (fun line =>
            strip (arabic line) ≠ [] ∧ strip (translation line) ≠ []) g) groups).
  { rewrite paginate_runs in Hg by lia. injection Hg as <-.
    apply Forall_fmap, Forall_forall. intros j _. simpl.
    apply Forall_take, Forall_drop, Hne. }
  cbn [slides presentation_of]. apply Forall_app. split.
  - apply Forall_fmap. eapply Forall_impl; [|exact Hne].
    intros line [Ha Ht]. simpl.
    rewrite slide_lines_single_slide, text_frames_single_slide.
    split; [by repeat constructor|].
    repeat constructor; simpl; done.
  - apply Forall_fmap. eapply Forall_impl; [|exact Hgroups].
    intros g Hgne. simpl.
    rewrite slide_lines_three_slide, text_frames_three_slide.
    split; [done|].
    repeat constructor; cbn [paragraphs]; unfold rendered;
      apply Forall_fmap; (eapply Forall_impl; [|exact Hgne]);
      by intros line [Ha Ht].
Qed.

Lemma lines_non_empty_witness :
  ∃ lines title prs1 prs3,
    scrape_dua sample_page = Some (lines, title) ∧
    create_pptx_single_line every_path every_path lines title sample_bg
    = Some prs1 ∧
    create_pptx_three_lines every_path every_path lines title sample_bg
    = Some prs3 ∧
    Forall (fun slide =>
              Forall (fun line => strip (arabic line) ≠ [] ∧
                                  strip (translation line) ≠ [])
                     (slide_lines slide) ∧
              Forall (fun f => Forall (fun p => strip (text p) ≠ [])
                                      (paragraphs f))
                     (text_frames slide))
           (slides prs1 ++ slides prs3).
Proof.
  destruct (lines_non_empty sample_page every_path every_path sample_bg)
    as (lines & title & Hrun & _ & Hb).
  destruct Hb as (prs1 & prs3 & H1 & H3 & Hall); [intros _; reflexivity|].
  exists lines, title, prs1, prs3. auto.
Defined.

(** C2 (pagination round trip). For every list of lines and every group
    size [k >= 1], [paginate] returns groups whose concatenation, in
    order, is the list itself. The same holds for what the two builders,
    given a background they can use, put on their slides: reading the
    lines back slide by slide gives the input list, for the
    one-line-per-slide loop and for the groups of three. *)
Theorem pagination_round_trip (dua_lines : list DuaLine) (k : nat)
    (path_exists picture_ok : pystr → bool) (title : pystr)
    (bg : option pystr) :
  1 ≤ k →
  ∃ groups,
    paginate dua_lines k = Some groups ∧
    concat groups = dua_lines ∧
    (usable path_exists picture_ok bg →
     ∃ prs1 prs3,
       create_pptx_single_line path_exists picture_ok dua_lines title bg
       = Some prs1 ∧
       concat (slide_lines <$> slides prs1) = dua_lines ∧
       create_pptx_three_lines path_exists picture_ok dua_lines title bg
       = Some prs3 ∧
       concat (slide_lines <$> slides prs3) = dua_lines).
Proof.
  intros Hk. eexists.
  split; [by apply paginate_runs|].
  split; [apply concat_runs, runs_cover, Hk|]. intros Hu.
  destruct (create_pptx_three_lines_slides path_exists picture_ok dua_lines
              title bg Hu) as (groups3 & Hg3 & H3).
  eexists _, _.
  split; [by apply create_pptx_single_line_slides|].
  split; [|split; [exact H3|]]; cbn [slides presentation_of];
    rewrite <- list_fmap_compose.
  - rewrite <- (concat_singletons dua_lines) at 2. f_equal.
    apply list_fmap_ext. intros _ line _.
    apply slide_lines_single_slide.
  - rewrite paginate_runs in Hg3 by lia. injection Hg3 as <-.
    etransitivity;
      [|apply (concat_runs 3 ((length dua_lines + (3 - 1)) / 3)), runs_cover; lia].
    f_equal. rewrite <- list_fmap_compose.
    apply list_fmap_ext. intros _ j _.
    apply slide_lines_three_slide.
Qed.

Lemma pagination_round_trip_witness :
  ∃ groups prs1 prs3,
    paginate sample_lines 3 = Some groups ∧
    concat groups = sample_lines ∧
    create_pptx_single_line every_path every_path sample_lines [] sample_bg
    = Some prs1 ∧
    concat (slide_lines <$> slides prs1) = sample_lines ∧
    create_pptx_three_lines every_path every_path sample_lines [] sample_bg
    = Some prs3 ∧
    concat (slide_lines <$> slides prs3) = sample_lines.
Proof.
  destruct (pagination_round_trip sample_lines 3 every_path every_path []
              sample_bg) as (groups & Hg & Hc & Hb); [lia|].
  destruct Hb as (prs1 & prs3 & H1 & Hc1 & H3 & Hc3); [intros _; reflexivity|].
  exists groups, prs1, prs3. auto 10.
Defined.

(** C3 (group size bound). For every list of lines and every group size
    [k >= 1], every group of [paginate] has at least one line and at most
    [k], and every group but the last has exactly [k]. The empty list
    gives no group, and no slide in either builder, without an error. *)
Theorem group_size_bound (dua_lines : list DuaLine) (k : nat)
    (path_exists picture_ok : pystr → bool) (title : pystr)
    (bg : option pystr) :
  1 ≤ k →
  ∃ groups,
    paginate dua_lines k = Some groups ∧
    (∀ j g, groups !! j = Some g →
            1 ≤ length g ≤ k ∧ (S j < length groups → length g = k)) ∧
    paginate [] k = Some [] ∧
    create_pptx_single_line path_exists picture_ok [] title bg
    = Some (presentation_of []) ∧
    create_pptx_three_lines path_exists picture_ok [] title bg
    = Some (presentation_of []).
Proof.
  intros Hk. eexists. split; [by apply paginate_runs|].
  split; [|split; [|by split]].
  - intros j g Hj. rewrite length_fmap, length_seq.
    apply list_lookup_fmap_Some in Hj as (j' & -> & Hj').
    apply lookup_seq in Hj' as [-> Hlt]. simpl in *.
    destruct (decide (length dua_lines = 0)) as [E|E].
    + rewrite E, runs_zero in Hlt by done. lia.
    + apply run_length; [done| |done].
      apply runs_tight; [done|lia].
  - rewrite paginate_runs by done. cbn [length]. by rewrite runs_zero.
Qed.

Lemma group_size_bound_witness :
  ∃ groups,
    paginate sample_lines 3 = Some groups ∧
    (∀ j g, groups !! j = Some g →
            1 ≤ length g ≤ 3 ∧ (S j < length groups → length g = 3)) ∧
    paginate [] 3 = Some [] ∧
    create_pptx_single_line every_path no_path [] [] sample_bg
    = Some (presentation_of []) ∧
    create_pptx_three_lines every_path no_path [] [] sample_bg
    = Some (presentation_of []).
Proof. apply group_size_bound. lia. Defined.

(** C5 (layout pairing). Given a background they can use, both builders
    return a presentation. Each slide of the single style shows the one
    line of its group of size one, and each slide of the three-lines
    style shows the lines of its group of size three: exactly one Arabic
    paragraph and one English paragraph per line, with the text of that
    line, the Arabic one right-aligned and bold, the English one
    left-aligned. The point sizes fall in the order of the four tiers:
    single Arabic (28) above single English (24) above grouped Arabic
    (22) above grouped English (18). *)
Theorem layout_pairing (path_exists picture_ok : pystr → bool)
    (dua_lines : list DuaLine) (title : pystr) (bg : option pystr) :
  ∃ groups1 groups3,
    paginate dua_lines 1 = Some groups1 ∧
    paginate dua_lines 3 = Some groups3 ∧
    (Pt 18 < Pt 22 < Pt 24 ∧ Pt 24 < Pt 28)%Z ∧
    (usable path_exists picture_ok bg →
     ∃ prs1 prs3,
       create_pptx_single_line path_exists picture_ok dua_lines title bg
       = Some prs1 ∧
       create_pptx_three_lines path_exists picture_ok dua_lines title bg
       = Some prs3 ∧
       Forall2 (shows (Pt 28) (Pt 24)) (slides prs1) groups1 ∧
       Forall2 (shows (Pt 22) (Pt 18)) (slides prs3) groups3).
Proof.
  eexists _, _. split; [apply paginate_one|].
  split; [apply paginate_runs; lia|]. split; [unfold Pt; lia|]. intros Hu.
  destruct (create_pptx_three_lines_slides path_exists picture_ok dua_lines
              title bg Hu) as (groups & Hg & H3).
  rewrite paginate_runs in Hg by lia. injection Hg as <-.
  eexists _, _.
  split; [by apply create_pptx_single_line_slides|]. split; [exact H3|].
  cbn [slides presentation_of]. split.
  - apply Forall2_fmap, Forall_Forall2_diag, Forall_forall.
    intros line _. apply single_slide_shows.
  - apply Forall2_fmap_l, Forall_Forall2_diag, Forall_forall.
    intros g _. apply three_slide_shows.
Qed.

Lemma layout_pairing_witness :
  ∃ groups1 groups3 prs1 prs3,
    paginate sample_lines 1 = Some groups1 ∧
    paginate sample_lines 3 = Some groups3 ∧
    create_pptx_single_line every_path every_path sample_lines [] sample_bg
    = Some prs1 ∧
    create_pptx_three_lines every_path every_path sample_lines [] sample_bg
    = Some prs3 ∧
    Forall2 (shows (Pt 28) (Pt 24)) (slides prs1) groups1 ∧
    Forall2 (shows (Pt 22) (Pt 18)) (slides prs3) groups3.
Proof.
  destruct (layout_pairing every_path every_path sample_lines [] sample_bg)
    as (groups1 & groups3 & Hg1 & Hg3 & _ & Hb).
  destruct Hb as (prs1 & prs3 & H1 & H3 & Hs1 & Hs3); [intros _; reflexivity|].
  exists groups1, groups3, prs1, prs3. auto 10.
Defined.

Lemma filter_background_other path_exists bg :
  List.filter (fun sh => negb (is_picture sh)) (background_shapes path_exists bg) = [].
Proof.
  unfold background_shapes. destruct bg as [path|]; [|done].
  by destruct (truthy path && path_exists path).
Qed.

Lemma background_files path_exists bg :
  omap (fun sh => match sh with Picture f _ _ _ _ => Some f | _ => None end)
       (background_shapes path_exists bg)
  = match bg with
    | Some path => if truthy path && path_exists path then [path] else []
    | None => []
    end.
Proof.
  unfold background_shapes. destruct bg as [path|]; [|done].
  by destruct (truthy path && path_exists path).
Qed.

Lemma other_shapes_single_slide path_exists bg line :
  other_shapes (single_slide path_exists bg line) =
  other_shapes (single_slide (fun _ => false) None line).
Proof.
  unfold other_shapes, single_slide. cbn [shapes].
  by rewrite List.filter_app, filter_background_other.
Qed.

Lemma other_shapes_three_slide path_exists bg g :
  other_shapes (three_slide path_exists bg g) =
  other_shapes (three_slide (fun _ => false) None g).
Proof.
  unfold other_shapes, three_slide. cbn [shapes].
  by rewrite List.filter_app, filter_background_other.
Qed.

Lemma picture_files_single_slide path_exists bg line :
  picture_files (single_slide path_exists bg line)
  = match bg with
    | Some path => if truthy path && path_exists path then [path] else []
    | None => []
    end.
Proof.
  unfold picture_files, single_slide. cbn [shapes].
  rewrite omap_app. simpl. rewrite app_nil_r. apply background_files.
Qed.

Lemma picture_files_three_slide path_exists bg g :
  picture_files (three_slide path_exists bg g)
  = match bg with
    | Some path => if truthy path && path_exists path then [path] else []
    | None => []
    end.
Proof.
  unfold picture_files, three_slide. cbn [shapes].
  rewrite omap_app. simpl. rewrite app_nil_r. apply background_files.
Qed.

(** C6 (background), as amended. The background path is used by the
    builders for one thing, the picture, and it is the builders that
    test it: when the path is a non-empty string of an existing file,
    every slide gets exactly one picture, with that path unchanged, and
    otherwise no slide gets one. When the picture is asked for and the
    file cannot be read as an image, a builder with at least one line
    raises. For any two backgrounds that the builders can use, the text
    frames of the slides are the same, and so are all their shapes other
    than the picture. *)
Theorem background_pass_through
    (path_exists picture_ok path_exists' picture_ok' : pystr → bool)
    (dua_lines : list DuaLine) (title : pystr) (bg bg' : option pystr) :
  (usable path_exists picture_ok bg → usable path_exists' picture_ok' bg' →
   ∃ p1 p1' p3 p3',
     create_pptx_single_line path_exists picture_ok dua_lines title bg
     = Some p1 ∧
     create_pptx_single_line path_exists' picture_ok' dua_lines title bg'
     = Some p1' ∧
     create_pptx_three_lines path_exists picture_ok dua_lines title bg
     = Some p3 ∧
     create_pptx_three_lines path_exists' picture_ok' dua_lines title bg'
     = Some p3' ∧
     text_frames <$> slides p1 = text_frames <$> slides p1' ∧
     text_frames <$> slides p3 = text_frames <$> slides p3' ∧
     other_shapes <$> slides p1 = other_shapes <$> slides p1' ∧
     other_shapes <$> slides p3 = other_shapes <$> slides p3' ∧
     Forall (fun slide =>
               picture_files slide =
               match bg with
               | Some path =>
                   if truthy path && path_exists path then [path] else []
               | None => []
               end)
            (slides p1 ++ slides p3)) ∧
  (¬ usable path_exists picture_ok bg →
   ∀ line lines,
     create_pptx_single_line path_exists picture_ok (line :: lines) title bg
     = None ∧
     create_pptx_three_lines path_exists picture_ok (line :: lines) title bg
     = None).
Proof.
  split.
  - intros Hu Hu'.
    destruct (create_pptx_three_lines_slides path_exists picture_ok dua_lines
                title bg Hu) as (groups & Hg & H3).
    destruct (create_pptx_three_lines_slides path_exists' picture_ok'
                dua_lines title bg' Hu') as (groups' & Hg' & H3').
    assert (groups' = groups) as -> by congruence.
    eexists _, _, _, _.
    split; [by apply create_pptx_single_line_slides|].
    split; [by apply create_pptx_single_line_slides|].
    split; [exact H3|]. split; [exact H3'|].
    cbn [slides presentation_of]. rewrite <- !list_fmap_compose.
    repeat split.
    + apply list_fmap_ext. intros _ line _. simpl.
      by rewrite !text_frames_single_slide.
    + apply list_fmap_ext. intros _ g _. simpl.
      by rewrite !text_frames_three_slide.
    + apply list_fmap_ext. intros _ line _. simpl.
      by rewrite other_shapes_single_slide,
                 (other_shapes_single_slide path_exists' bg').
    + apply list_fmap_ext. intros _ g _. simpl.
      by rewrite other_shapes_three_slide,
                 (other_shapes_three_slide path_exists' bg').
    + apply Forall_app. split; apply Forall_fmap, Forall_forall; intros x _.
      * apply picture_files_single_slide.
      * apply picture_files_three_slide.
  - intros Hu line lines. split.
    + by apply create_pptx_single_line_raises.
    + by apply create_pptx_three_lines_raises.
Qed.

Lemma background_pass_through_witness :
  ∃ p1 p1' p3 p3',
    create_pptx_single_line every_path every_path sample_lines [] sample_bg
    = Some p1 ∧
    create_pptx_single_line no_path no_path sample_lines [] sample_bg
    = Some p1' ∧
    create_pptx_three_lines every_path every_path sample_lines [] sample_bg
    = Some p3 ∧
    create_pptx_three_lines no_path no_path sample_lines [] sample_bg
    = Some p3' ∧
    text_frames <$> slides p1 = text_frames <$> slides p1' ∧
    text_frames <$> slides p3 = text_frames <$> slides p3' ∧
    other_shapes <$> slides p1 = other_shapes <$> slides p1' ∧
    other_shapes <$> slides p3 = other_shapes <$> slides p3' ∧
    Forall (fun slide => picture_files slide = [lit "bg.jpg"])
           (slides p1 ++ slides p3).
Proof.
  apply (proj1 (background_pass_through every_path every_path no_path no_path
                  sample_lines [] sample_bg sample_bg)).
  - intros _. reflexivity.
  - intros H. vm_compute in H. discriminate H.
Defined.

(** C6 as it was worded fails. With the same lines, a background file
    that exists but is not an image makes both builders raise, where no
    background gives the slides: the text elements are not the same for
    any background value. And the builders do look at the handle: for
    one and the same path the slides have the picture when the file
    exists and have none when it does not. *)
Lemma background_pass_through_counterexample :
  create_pptx_single_line every_path no_path sample_lines [] sample_bg = None ∧
  create_pptx_three_lines every_path no_path sample_lines [] sample_bg = None ∧
  (∃ prs, create_pptx_single_line every_path no_path sample_lines [] None
          = Some prs ∧
          length (slides prs) = 4) ∧
  (∃ prs prs',
     create_pptx_single_line every_path every_path sample_lines [] sample_bg
     = Some prs ∧
     create_pptx_single_line no_path every_path sample_lines [] sample_bg
     = Some prs' ∧
     picture_files <$> slides prs
     = [[lit "bg.jpg"]; [lit "bg.jpg"]; [lit "bg.jpg"]; [lit "bg.jpg"]] ∧
     picture_files <$> slides prs' = [[]; []; []; []]).
Proof.
  split; [reflexivity|]. split; [reflexivity|].
  split; [by eexists|]. by eexists _, _.
Qed.

(** C7 (title), as amended. [scrape_dua] returns, and its title comes
    from at most one element: when no tag named [ptitle] is in the page the title is
    the placeholder [Dua]; otherwise it is the text of the first such tag
    in document order, as [get_text(strip=True)] gives it, which for a
    tag holding one text node is that text stripped. *)
Theorem title_extraction (soup : PageElement) :
  ∃ lines title,
    scrape_dua soup = Some (lines, title) ∧
    ((∀ e, e ∈ descendants soup → ¬ is_ptitle e) → title = lit "Dua") ∧
    (∀ pre e post,
       descendants soup = pre ++ e :: post →
       is_ptitle e →
       (∀ x, x ∈ pre → ¬ is_ptitle x) →
       title = get_text_strip e ∧
       (∀ cl s, e = Tag (lit "ptitle") cl [NavigableString s] → title = strip s)).
Proof.
  destruct (scrape_dua_returns soup) as (lines & Hrun & _).
  eexists _, _. split; [exact Hrun|]. split.
  - intros H. by rewrite find_absent.
  - intros pre e post Hd He Hpre.
    rewrite (find_first soup pre e post Hd He Hpre).
    split; [done|]. intros cl s ->. apply get_text_strip_single.
Qed.

Lemma title_extraction_witness :
  ∃ lines,
    scrape_dua (Tag (lit "[document]") []
                  [Tag (lit "ptitle") [] [NavigableString (lit " Dua Kumayl ")]])
    = Some (lines, lit "Dua Kumayl").
Proof.
  destruct (title_extraction
              (Tag (lit "[document]") []
                 [Tag (lit "ptitle") [] [NavigableString (lit " Dua Kumayl ")]]))
    as (lines & title & Hrun & _ & Hfirst).
  exists lines. rewrite Hrun. do 2 f_equal.
  refine (proj2 (Hfirst [] _ _ eq_refl _ _) [] (lit " Dua Kumayl ") eq_refl).
  - by eexists _, _.
  - intros x Hx. inversion Hx.
Defined.

(** C7 as it was worded fails: the title is not always the trimmed text
    of the title element. For [<ptitle> Dua <b> Kumayl </b></ptitle>]
    the title is [DuaKumayl], and the trimmed text of the element is
    [Dua  Kumayl]. *)
Lemma title_extraction_counterexample :
  find (lit "ptitle") mixed_title_page = Some mixed_title ∧
  scrape_dua mixed_title_page = Some ([], lit "DuaKumayl") ∧
  strip (get_text mixed_title) = lit "Dua  Kumayl" ∧
  lit "DuaKumayl" ≠ strip (get_text mixed_title).
Proof.
  split; [reflexivity|]. split; [reflexivity|]. split; [reflexivity|].
  vm_compute. discriminate.
Qed.


(** C9 (blank title). When the title element that [find] locates has only
    white space as its text, [scrape_dua] returns the empty string as the
    title, not the placeholder [Dua]. *)
Theorem blank_title (soup e : PageElement) :
  find (lit "ptitle") soup = Some e →
  Forall (fun c => isspace c = true) (get_text e) →
  ∃ lines title,
    scrape_dua soup = Some (lines, title) ∧ title = [] ∧ title ≠ lit "Dua".
Proof.
  intros Hfind Hblank.
  destruct (scrape_dua_returns soup) as (lines & Hrun & _).
  rewrite Hfind, (get_text_strip_blank e Hblank) in Hrun.
  by eexists _, _.
Qed.

Lemma blank_title_witness :
  ∃ lines title,
    scrape_dua (Tag (lit "[document]") []
                  [Tag (lit "ptitle") [] [NavigableString (lit "  ")];
                   Tag (lit "div") [lit "Ara"] [NavigableString (lit "a")];
                   Tag (lit "div") [lit "Tra"] [NavigableString (lit "t")]])
    = Some (lines, title) ∧ title = [] ∧ title ≠ lit "Dua".
Proof.
  apply (blank_title _ (Tag (lit "ptitle") [] [NavigableString (lit "  ")])).
  - reflexivity.
  - by repeat constructor.
Defined.

(** C10 (title independence). For given lines and background, each
    builder does one and the same thing whatever title it is called with;
    given a background it can use, it returns one and the same
    presentation for every title. *)
Theorem title_independence (path_exists picture_ok : pystr → bool)
    (dua_lines : list DuaLine) (bg : option pystr) :
  (∀ title1 title2,
     create_pptx_single_line path_exists picture_ok dua_lines title1 bg
     = create_pptx_single_line path_exists picture_ok dua_lines title2 bg ∧
     create_pptx_three_lines path_exists picture_ok dua_lines title1 bg
     = create_pptx_three_lines path_exists picture_ok dua_lines title2 bg) ∧
  (usable path_exists picture_ok bg →
   ∃ prs1 prs3,
     ∀ title,
       create_pptx_single_line path_exists picture_ok dua_lines title bg
       = Some prs1 ∧
       create_pptx_three_lines path_exists picture_ok dua_lines title bg
       = Some prs3).
Proof.
  split; [by intros title1 title2|]. intros Hu.
  destruct (create_pptx_three_lines_slides path_exists picture_ok dua_lines []
              bg Hu) as (groups & Hg & H3).
  eexists _, _. intros title.
  split; [by apply create_pptx_single_line_slides|exact H3].
Qed.

Lemma title_independence_witness :
  ∃ prs1 prs3,
    ∀ title,
      create_pptx_single_line every_path every_path sample_lines title sample_bg
      = Some prs1 ∧
      create_pptx_three_lines every_path every_path sample_lines title sample_bg
      = Some prs3.
Proof.
  apply (proj2 (title_independence every_path every_path sample_lines
                  sample_bg)).
  intros _. reflexivity.
Defined.

(** ** The scenarios of the specification *)

(** Four [Ara] elements and two [Tra] elements, the second one blank:
    one line, from index 0. *)
Example scenario_D :
  scrape_dua (Tag (lit "[document]") []
                [div_of "Ara" "a0"; div_of "Tra" "t0";
                 div_of "Ara" "a1"; div_of "Tra" "   ";
                 div_of "Ara" "a2"; div_of "Ara" "a3"])
  = Some ([mkDuaLine (lit "a0") (lit "t0")], lit "Dua").
Proof. reflexivity. Qed.

(** A blank pair in the middle does not shift the later ones. *)
Example drop_keeps_alignment :
  scrape_dua (Tag (lit "[document]") []
                [div_of "Ara" "a0"; div_of "Tra" "t0";
                 div_of "Ara" " "; div_of "Tra" "t1";
                 div_of "Ara" "a2"; div_of "Tra" "t2"])
  = Some ([mkDuaLine (lit "a0") (lit "t0"); mkDuaLine (lit "a2") (lit "t2")],
          lit "Dua").
Proof. reflexivity. Qed.

(** Seven lines in groups of three: sizes 3, 3, 1. *)
Example scenario_B (l : DuaLine) :
  ∃ groups, paginate [l; l; l; l; l; l; l] 3 = Some groups ∧
            length <$> groups = [3; 3; 1].
Proof. by eexists. Qed.

(** * Further properties of the extraction *)

Lemma strip_idempotent (s : pystr) : strip (strip s) = strip s.
Proof. destruct (strip_clean s). by apply strip_fixed. Qed.

Lemma lit_clean_Dua : strip (lit "Dua") = lit "Dua".
Proof. reflexivity. Qed.

Lemma origin_fields arabic_divs translation_divs idxs lines :
  Forall2 (origin arabic_divs translation_divs) idxs lines →
  Forall (fun line => strip (arabic line) = arabic line ∧
                      strip (translation line) = translation line) lines.
Proof.
  induction 1 as [|i line idxs lines (a & t & _ & _ & Ha & Ht) _ IH];
    constructor; [|done].
  rewrite Ha, Ht. split; apply strip_get_text_strip.
Qed.

(** X1. A [DuaLine] never has white space at either end of a field,
    whatever strings it is made from: stripping a field again changes
    nothing. *)
Theorem DuaLine_init_stripped (a t : pystr) :
  strip (arabic (DuaLine_init a t)) = arabic (DuaLine_init a t) ∧
  strip (translation (DuaLine_init a t)) = translation (DuaLine_init a t) ∧
  starts_clean (arabic (DuaLine_init a t)) ∧
  ends_clean (arabic (DuaLine_init a t)) ∧
  starts_clean (translation (DuaLine_init a t)) ∧
  ends_clean (translation (DuaLine_init a t)).
Proof.
  unfold DuaLine_init. cbn [arabic translation].
  destruct (strip_clean a), (strip_clean t).
  by rewrite !strip_idempotent.
Qed.

(** X2. Everything [scrape_dua] returns is stripped: the title, whether
    it comes from the title element or is the placeholder, and both
    fields of every line. *)
Theorem scrape_dua_stripped (soup : PageElement) :
  ∃ lines title,
    scrape_dua soup = Some (lines, title) ∧
    strip title = title ∧
    Forall (fun line => strip (arabic line) = arabic line ∧
                        strip (translation line) = translation line) lines.
Proof.
  destruct (scrape_dua_returns soup) as (lines & Hrun & Ho).
  eexists _, _. split; [exact Hrun|]. split.
  - destruct (find (lit "ptitle") soup) as [e|].
    + apply strip_get_text_strip.
    + apply lit_clean_Dua.
  - by eapply origin_fields.
Qed.

Lemma filter_nil_iff {A : Type} (f : A → bool) (l : list A) :
  List.filter f l = [] ↔ Forall (fun x => f x = false) l.
Proof.
  induction l as [|x l IH]; simpl; [done|].
  destruct (f x) eqn:E.
  - split; [done|]. intros H. inversion H. congruence.
  - rewrite IH. split; [by constructor|]. by inversion 1.
Qed.

Lemma filter_all_iff {A : Type} (f : A → bool) (l : list A) :
  Forall (fun x => f x = true) l → List.filter f l = l.
Proof.
  induction 1 as [|x l Hx _ IH]; simpl; [done|]. by rewrite Hx, IH.
Qed.

(** X3. [scrape_dua] returns no line exactly when every index below the
    shorter of the two element lists is dropped; so a page without [Tra]
    elements, or without [Ara] elements, gives the empty list. *)
Theorem scrape_dua_empty (soup : PageElement) :
  let arabic_divs := find_all (lit "div") (Some (lit "Ara")) soup in
  let translation_divs := find_all (lit "div") (Some (lit "Tra")) soup in
  let n := min (length arabic_divs) (length translation_divs) in
  ∃ lines title,
    scrape_dua soup = Some (lines, title) ∧
    (lines = [] ↔
     ∀ i, i < n → survives arabic_divs translation_divs i = false) ∧
    (arabic_divs = [] ∨ translation_divs = [] → lines = []).
Proof.
  intros A T n.
  destruct (scrape_dua_returns soup) as (lines & Hrun & Ho).
  fold A T n in Ho.
  assert (Hiff : lines = [] ↔ ∀ i, i < n → survives A T i = false).
  { split.
    - intros ->. apply Forall2_nil_inv_r in Ho.
      apply filter_nil_iff in Ho. intros i Hi.
      eapply (proj1 (Forall_forall _ _) Ho), in_seq. lia.
    - intros H.
      assert (List.filter (survives A T) (seq 0 n) = []) as E.
      { apply filter_nil_iff, Forall_forall. intros i Hi.
        apply in_seq in Hi. apply H. lia. }
      rewrite E in Ho. by apply Forall2_nil_inv_l in Ho. }
  eexists _, _. split; [exact Hrun|]. split; [exact Hiff|].
  intros Hnone. apply Hiff. intros i Hi.
  assert (n = 0); [|lia].
  subst n. destruct Hnone as [E|E]; rewrite E; simpl; lia.
Qed.

(** X4. When no index below the shorter list is dropped, [scrape_dua]
    returns exactly that many lines, and the line at position [i] is the
    pair of the [i]-th elements. *)
Theorem scrape_dua_all_kept (soup : PageElement) :
  let arabic_divs := find_all (lit "div") (Some (lit "Ara")) soup in
  let translation_divs := find_all (lit "div") (Some (lit "Tra")) soup in
  let n := min (length arabic_divs) (length translation_divs) in
  (∀ i, i < n → survives arabic_divs translation_divs i = true) →
  ∃ lines title,
    scrape_dua soup = Some (lines, title) ∧
    length lines = n ∧
    ∀ i, i < n →
         ∃ line, lines !! i = Some line ∧
                 origin arabic_divs translation_divs i line.
Proof.
  intros A T n Hall.
  destruct (scrape_dua_returns soup) as (lines & Hrun & Ho).
  fold A T n in Ho.
  rewrite filter_all_iff in Ho
    by (apply Forall_forall; intros i Hi; apply in_seq in Hi; apply Hall; lia).
  eexists _, _. split; [exact Hrun|].
  pose proof (Forall2_length Ho) as Hlen. rewrite length_seq in Hlen.
  split; [done|]. intros i Hi.
  destruct (lookup_lt_is_Some_2 lines i ltac:(lia)) as [line Hline].
  exists line. split; [done|].
  eapply Forall2_lookup_lr in Ho; [exact Ho| |exact Hline].
  by apply lookup_seq_lt.
Qed.

Lemma scrape_dua_all_kept_witness :
  ∃ lines title,
    scrape_dua (Tag (lit "[document]") []
                  [div_of "Ara" "a0"; div_of "Tra" "t0";
                   div_of "Ara" "a1"; div_of "Tra" "t1"; div_of "Ara" "a2"])
    = Some (lines, title) ∧
    length lines = 2.
Proof.
  destruct (scrape_dua_all_kept
              (Tag (lit "[document]") []
                 [div_of "Ara" "a0"; div_of "Tra" "t0";
                  div_of "Ara" "a1"; div_of "Tra" "t1"; div_of "Ara" "a2"]))
    as (lines & title & Hrun & Hlen & _).
  - intros [|[|i]] Hi; [reflexivity|reflexivity|].
    exfalso. vm_compute in Hi. lia.
  - exists lines, title. split; [exact Hrun|exact Hlen].
Defined.

(** * Further properties of the builders *)

(** Both builders at once, in closed form. *)
Lemma builders_slides path_exists picture_ok dua_lines title bg :
  usable path_exists picture_ok bg →
  create_pptx_single_line path_exists picture_ok dua_lines title bg
  = Some (presentation_of (single_slide path_exists bg <$> dua_lines)) ∧
  create_pptx_three_lines path_exists picture_ok dua_lines title bg
  = Some (presentation_of
            (three_slide path_exists bg <$>
               ((fun j => take 3 (drop (j * 3) dua_lines)) <$>
                seq 0 ((length dua_lines + 2) / 3)))).
Proof.
  intros Hu. split; [by apply create_pptx_single_line_slides|].
  destruct (create_pptx_three_lines_slides path_exists picture_ok dua_lines
              title bg Hu) as (groups & Hg & H3).
  rewrite paginate_runs in Hg by lia. injection Hg as <-. exact H3.
Qed.

(** X5. Given a background they can use, the single style makes one slide
    per line; the three-lines style makes a third as many, rounded up. *)
Theorem slide_counts (path_exists picture_ok : pystr → bool)
    (dua_lines : list DuaLine) (title : pystr) (bg : option pystr) :
  usable path_exists picture_ok bg →
  ∃ prs1 prs3,
    create_pptx_single_line path_exists picture_ok dua_lines title bg
    = Some prs1 ∧
    create_pptx_three_lines path_exists picture_ok dua_lines title bg
    = Some prs3 ∧
    length (slides prs1) = length dua_lines ∧
    length (slides prs3) = (length dua_lines + 2) / 3.
Proof.
  intros Hu.
  destruct (builders_slides path_exists picture_ok dua_lines title bg Hu)
    as [H1 H3].
  eexists _, _. split; [exact H1|]. split; [exact H3|].
  cbn [slides presentation_of].
  by rewrite !length_fmap, length_seq.
Qed.

Lemma slide_counts_witness :
  ∃ prs1 prs3,
    create_pptx_single_line every_path every_path sample_lines [] sample_bg
    = Some prs1 ∧
    create_pptx_three_lines every_path every_path sample_lines [] sample_bg
    = Some prs3 ∧
    length (slides prs1) = length sample_lines ∧
    length (slides prs3) = (length sample_lines + 2) / 3.
Proof. apply slide_counts. intros _. reflexivity. Defined.

(** X6. Where a line ends up, given a background the builders can use:
    line [i] of the input is the only line of slide [i] in the single
    style, and it is line [i mod 3] of slide [i / 3] in the three-lines
    style. *)
Theorem line_position (path_exists picture_ok : pystr → bool)
    (dua_lines : list DuaLine) (title : pystr) (bg : option pystr)
    (i : nat) (line : DuaLine) :
  usable path_exists picture_ok bg →
  dua_lines !! i = Some line →
  ∃ prs1 prs3 s1 s3,
    create_pptx_single_line path_exists picture_ok dua_lines title bg
    = Some prs1 ∧
    create_pptx_three_lines path_exists picture_ok dua_lines title bg
    = Some prs3 ∧
    slides prs1 !! i = Some s1 ∧ slide_lines s1 = [line] ∧
    slides prs3 !! (i / 3) = Some s3 ∧
    slide_lines s3 !! (i mod 3) = Some line.
Proof.
  intros Hu Hi.
  destruct (builders_slides path_exists picture_ok dua_lines title bg Hu)
    as [H1 H3].
  eexists _, _, _, _. split; [exact H1|]. split; [exact H3|].
  cbn [slides presentation_of].
  split; [by rewrite list_lookup_fmap, Hi|].
  split; [apply slide_lines_single_slide|].
  pose proof (lookup_lt_Some _ _ _ Hi) as Hlt.
  pose proof (runs_cover (length dua_lines) 3 ltac:(lia)) as Hc.
  replace (3 - 1) with 2 in Hc by lia.
  pose proof (Nat.div_mod_eq i 3) as Hdm.
  pose proof (Nat.mod_upper_bound i 3 ltac:(lia)) as Hm.
  assert (i / 3 < (length dua_lines + 2) / 3) as Hq.
  { revert Hc Hdm Hm Hlt.
    generalize (i / 3), (i mod 3), ((length dua_lines + 2) / 3),
               (length dua_lines).
    intros; lia. }
  split.
  - rewrite !list_lookup_fmap, lookup_seq_lt by done. reflexivity.
  - rewrite slide_lines_three_slide.
    rewrite lookup_take_lt, lookup_drop by done.
    rewrite <- Hi. f_equal. rewrite Hdm at 3. lia.
Qed.

Lemma line_position_witness :
  ∃ prs1 prs3 s1 s3,
    create_pptx_single_line every_path every_path
      [mkDuaLine [1%N] [2%N]; mkDuaLine [3%N] [4%N];
       mkDuaLine [5%N] [6%N]; mkDuaLine [7%N] [8%N]] [] sample_bg
    = Some prs1 ∧
    create_pptx_three_lines every_path every_path
      [mkDuaLine [1%N] [2%N]; mkDuaLine [3%N] [4%N];
       mkDuaLine [5%N] [6%N]; mkDuaLine [7%N] [8%N]] [] sample_bg
    = Some prs3 ∧
    slides prs1 !! 3 = Some s1 ∧ slide_lines s1 = [mkDuaLine [7%N] [8%N]] ∧
    slides prs3 !! (3 / 3) = Some s3 ∧
    slide_lines s3 !! (3 mod 3) = Some (mkDuaLine [7%N] [8%N]).
Proof. apply line_position; [intros _|]; reflexivity. Defined.

(** X7. The layers of a slide, given a background the builders can use.
    In both styles every slide uses layout 6 and has exactly these
    shapes, from bottom to top: the background picture, present exactly
    when the path is a non-empty string of an existing file; the black
    rectangle; the Arabic box, on the right; the English box, on the
    left. Picture and rectangle start at the top left corner and have the
    size of the slide, 10 by 7.5 inches. In the single style the boxes
    are 4.5 by 2.5 inches, 2.5 inches from the top, and hold the Arabic
    text and the translation of the line of the slide; in the three-lines
    style they are 4.5 by 5.5 inches, 1 inch from the top, and hold the
    Arabic texts and the translations of the group of the slide. The
    Arabic box starts 5.2 inches from the left, the English one 0.3. *)
Theorem slide_layers (path_exists picture_ok : pystr → bool)
    (dua_lines : list DuaLine) (title : pystr) (bg : option pystr) :
  usable path_exists picture_ok bg →
  ∃ prs1 prs3 groups,
    create_pptx_single_line path_exists picture_ok dua_lines title bg
    = Some prs1 ∧
    create_pptx_three_lines path_exists picture_ok dua_lines title bg
    = Some prs3 ∧
    paginate dua_lines 3 = Some groups ∧
    slide_width prs1 = 9144000%Z ∧ slide_height prs1 = 6858000%Z ∧
    slide_width prs3 = 9144000%Z ∧ slide_height prs3 = 6858000%Z ∧
    Forall2 (fun slide line =>
               layout slide = 6 ∧
               ∃ fa fe,
                 shapes slide =
                   match bg with
                   | Some path =>
                       if truthy path && path_exists path
                       then [Picture path 0 0 9144000 6858000]
                       else []
                   | None => []
                   end ++
                   [AutoShape 1 0 0 9144000 6858000 black;
                    TextBox 4754880 2286000 4114800 2286000 fa;
                    TextBox 274320 2286000 4114800 2286000 fe] ∧
                 text <$> paragraphs fa = [arabic line] ∧
                 text <$> paragraphs fe = [translation line])
            (slides prs1) dua_lines ∧
    Forall2 (fun slide g =>
               layout slide = 6 ∧
               ∃ fa fe,
                 shapes slide =
                   match bg with
                   | Some path =>
                       if truthy path && path_exists path
                       then [Picture path 0 0 9144000 6858000]
                       else []
                   | None => []
                   end ++
                   [AutoShape 1 0 0 9144000 6858000 black;
                    TextBox 4754880 914400 4114800 5029200 fa;
                    TextBox 274320 914400 4114800 5029200 fe] ∧
                 text <$> paragraphs fa = arabic <$> g ∧
                 text <$> paragraphs fe = translation <$> g)
            (slides prs3) groups.
Proof.
  intros Hu.
  destruct (builders_slides path_exists picture_ok dua_lines title bg Hu)
    as [H1 H3].
  eexists _, _, _. split; [exact H1|]. split; [exact H3|].
  split; [apply paginate_runs; lia|].
  do 4 (split; [reflexivity|]).
  cbn [slides presentation_of].
  split; apply Forall2_fmap_l, Forall_Forall2_diag, Forall_forall;
    intros x _; (split; [reflexivity|]); eexists _, _;
    (split; [reflexivity|]); cbn [paragraphs]; unfold rendered;
    rewrite <- !list_fmap_compose; by split.
Qed.

Lemma slide_layers_witness :
  ∃ prs1 prs3 groups,
    create_pptx_single_line every_path every_path sample_lines [] sample_bg
    = Some prs1 ∧
    create_pptx_three_lines every_path every_path sample_lines [] sample_bg
    = Some prs3 ∧
    paginate sample_lines 3 = Some groups ∧
    slide_width prs1 = 9144000%Z ∧ slide_height prs1 = 6858000%Z ∧
    slide_width prs3 = 9144000%Z ∧ slide_height prs3 = 6858000%Z ∧
    Forall2 (fun slide line =>
               layout slide = 6 ∧
               ∃ fa fe,
                 shapes slide =
                   [Picture (lit "bg.jpg") 0 0 9144000 6858000;
                    AutoShape 1 0 0 9144000 6858000 black;
                    TextBox 4754880 2286000 4114800 2286000 fa;
                    TextBox 274320 2286000 4114800 2286000 fe] ∧
                 text <$> paragraphs fa = [arabic line] ∧
                 text <$> paragraphs fe = [translation line])
            (slides prs1) sample_lines ∧
    Forall2 (fun slide g =>
               layout slide = 6 ∧
               ∃ fa fe,
                 shapes slide =
                   [Picture (lit "bg.jpg") 0 0 9144000 6858000;
                    AutoShape 1 0 0 9144000 6858000 black;
                    TextBox 4754880 914400 4114800 5029200 fa;
                    TextBox 274320 914400 4114800 5029200 fe] ∧
                 text <$> paragraphs fa = arabic <$> g ∧
                 text <$> paragraphs fe = translation <$> g)
            (slides prs3) groups.
Proof.
  apply (slide_layers every_path every_path sample_lines [] sample_bg).
  intros _. reflexivity.
Defined.

(** X8. The look of the text, given a background the builders can use.
    Every paragraph of both builders is white Arial; no English paragraph
    has its bold property set; the paragraphs of the three-lines style
    are followed by 20 points of space, those of the single style have no
    spacing set. Every frame wraps its words and is anchored at the top:
    the anchor the source assigns is the number 1, which is the value of
    [MSO_ANCHOR.TOP]; the value of [MSO_ANCHOR.MIDDLE] is 3. *)
Theorem text_style (path_exists picture_ok : pystr → bool)
    (dua_lines : list DuaLine) (title : pystr) (bg : option pystr) :
  usable path_exists picture_ok bg →
  ∃ prs1 prs3,
    create_pptx_single_line path_exists picture_ok dua_lines title bg
    = Some prs1 ∧
    create_pptx_three_lines path_exists picture_ok dua_lines title bg
    = Some prs3 ∧
    Forall (fun slide =>
              ∃ fa fe,
                text_frames slide = [fa; fe] ∧
                Forall (fun f => word_wrap f = Some true ∧
                                 vertical_anchor f = Some 1%Z ∧
                                 (vertical_anchor f ≫= MSO_ANCHOR_of) = Some TOP ∧
                                 Forall (fun p => font_color p = Some white ∧
                                                  font_name p = Some (lit "Arial"))
                                        (paragraphs f))
                       [fa; fe] ∧
                Forall (fun q => font_bold q = None) (paragraphs fe))
           (slides prs1 ++ slides prs3) ∧
    Forall (fun slide =>
              Forall (fun f => Forall (fun p => space_after p = None) (paragraphs f))
                     (text_frames slide))
           (slides prs1) ∧
    Forall (fun slide =>
              Forall (fun f => Forall (fun p => space_after p = Some (Pt 20))
                                      (paragraphs f))
                     (text_frames slide))
           (slides prs3).
Proof.
  intros Hu.
  destruct (builders_slides path_exists picture_ok dua_lines title bg Hu)
    as [H1 H3].
  eexists _, _. split; [exact H1|]. split; [exact H3|].
  cbn [slides presentation_of].
  split; [apply Forall_app; split|split];
    apply Forall_fmap, Forall_forall; intros x _; simpl;
    rewrite ?text_frames_single_slide, ?text_frames_three_slide.
  - eexists _, _. split; [reflexivity|]. by repeat constructor.
  - eexists _, _. split; [reflexivity|]. cbn [paragraphs]. unfold rendered.
    split; repeat constructor; apply Forall_fmap, Forall_forall; by intros.
  - by repeat constructor.
  - cbn [paragraphs]. unfold rendered.
    repeat constructor; apply Forall_fmap, Forall_forall; by intros.
Qed.

Lemma text_style_witness :
  ∃ prs1 prs3,
    create_pptx_single_line every_path every_path sample_lines [] sample_bg
    = Some prs1 ∧
    create_pptx_three_lines every_path every_path sample_lines [] sample_bg
    = Some prs3 ∧
    Forall (fun slide =>
              ∃ fa fe,
                text_frames slide = [fa; fe] ∧
                Forall (fun f => (vertical_anchor f ≫= MSO_ANCHOR_of) = Some TOP)
                       [fa; fe])
           (slides prs1 ++ slides prs3).
Proof.
  destruct (text_style every_path every_path sample_lines [] sample_bg)
    as (prs1 & prs3 & H1 & H3 & Hall & _); [intros _; reflexivity|].
  exists prs1, prs3. split; [exact H1|]. split; [exact H3|].
  eapply Forall_impl; [|exact Hall].
  intros slide (fa & fe & Hf & Hs & _). exists fa, fe. split; [exact Hf|].
  eapply Forall_impl; [|exact Hs]. by intros f (_ & _ & Ha & _).
Defined.



Lemma artifact_names_helper (title : pystr) :
  (32%N ∉ replace_char 32%N 95%N title) ∧
  length (replace_char 32%N 95%N title) = length title.
Proof.
  unfold replace_char. split; [|apply length_fmap].
  intros H. apply list_elem_of_fmap in H as (c & Hc & _).
  destruct (N.eqb_spec c 32); [done|]. congruence.
Qed.

(** X10. The two file names made from one title are different, and
    neither contains a space. *)
Theorem filenames_distinct (title : pystr) :
  single_filename title ≠ three_filename title ∧
  (32%N ∉ single_filename title) ∧
  (32%N ∉ three_filename title).
Proof.
  destruct (artifact_names_helper title) as [Hsp _].
  unfold single_filename, three_filename. split; [|split].
  - intros H. by apply app_inv_head in H.
  - intros H. apply elem_of_app in H as [H|H]; [done|].
    vm_compute in H. by repeat (inversion H as [|? ? ? H']; clear H; rename H' into H).
  - intros H. apply elem_of_app in H as [H|H]; [done|].
    vm_compute in H. by repeat (inversion H as [|? ? ? H']; clear H; rename H' into H).
Qed.

(** * The handlers *)

(** ** Running the monad *)

Section Runs.

Context {A B : Type}.

Lemma bind_run (m : Bot A) (k : A → Bot B) w r w' :
  bind m k w = (r, w') →
  (∃ e, m w = (Raise e, w') ∧ r = Raise e) ∨
  (∃ a w1, m w = (Return a, w1) ∧ k a w1 = (r, w')).
Proof.
  unfold bind. destruct (m w) as [[a|e] w1]; intros H.
  - right. by exists a, w1.
  - left. exists e. by injection H as <- <-.
Qed.

Lemma try_except_run (body : Bot A) (handler : pystr → Bot A) w r w' :
  try_except body handler w = (r, w') →
  (∃ a, body w = (Return a, w') ∧ r = Return a) ∨
  (∃ e w1, body w = (Raise e, w1) ∧ handler e w1 = (r, w')).
Proof.
  unfold try_except. destruct (body w) as [[a|e] w1]; intros H.
  - left. exists a. by injection H as <- <-.
  - right. by exists e, w1.
Qed.

Lemma ret_run (a : A) w r w' :
  ret a w = (r, w') → r = Return a ∧ w' = w.
Proof. by intros [= <- <-]. Qed.

Lemma raise_run e w (r : outcome A) w' :
  raise e w = (r, w') → r = Raise e ∧ w' = w.
Proof. by intros [= <- <-]. Qed.

End Runs.

Lemma send_run env ev w r w' :
  send env ev w = (r, w') →
  (send_error env (trace w) ev = None ∧ r = Return tt ∧
   w' = {| user_data := user_data w; files := files w;
           trace := trace w ++ [ev] |}) ∨
  (∃ e, send_error env (trace w) ev = Some e ∧ r = Raise e ∧ w' = w).
Proof.
  unfold send. destruct (send_error env (trace w) ev) as [e|]; intros [= <- <-].
  - right. by exists e.
  - by left.
Qed.

Lemma outside_run error w r w' :
  outside error w = (r, w') →
  w' = w ∧ ((error = None ∧ r = Return tt) ∨ (∃ e, error = Some e ∧ r = Raise e)).
Proof.
  unfold outside. destruct error as [e|]; intros [= <- <-]; (split; [done|]).
  - right. by exists e.
  - by left.
Qed.

Lemma scrape_dua_from_url_run env url w r w' :
  scrape_dua_from_url env url w = (r, w') →
  w' = {| user_data := user_data w; files := files w;
          trace := trace w ++ [HttpGet url] |} ∧
  ((∃ e, fetch env url = inl e ∧ r = Raise e) ∨
   (∃ soup lines title,
      fetch env url = inr soup ∧ scrape_dua soup = Some (lines, title) ∧
      r = Return (lines, title))).
Proof.
  unfold scrape_dua_from_url. destruct (fetch env url) as [e|soup].
  - intros [= <- <-]. split; [done|]. left. by exists e.
  - destruct (scrape_dua_returns soup) as (lines & Hs & _). rewrite Hs.
    intros [= <- <-]. split; [done|]. right.
    eexists soup, lines, _. split; [reflexivity|]. split; [exact Hs|reflexivity].
Qed.

Lemma usable_dec path_exists picture_ok bg :
  usable path_exists picture_ok bg ∨ ¬ usable path_exists picture_ok bg.
Proof.
  destruct bg as [path|]; [|by left]. unfold usable.
  destruct (truthy path && path_exists path), (picture_ok path);
    [by left| |by left|by left].
  right. intros H. by specialize (H eq_refl).
Qed.

Lemma built_single_run env path path_exists dua_lines title w r w' :
  built env path
    (create_pptx_single_line path_exists (picture_ok_in env) dua_lines title
       (Some path)) w = (r, w') →
  w' = w ∧
  (r = Return (presentation_of
                 (single_slide path_exists (Some path) <$> dua_lines)) ∨
   ∃ e, r = Raise e).
Proof.
  destruct (usable_dec path_exists (picture_ok_in env) (Some path)) as [Hu|Hu].
  - rewrite create_pptx_single_line_slides by done.
    intros [= <- <-]. split; [done|by left].
  - destruct dua_lines as [|line dua_lines].
    + intros [= <- <-]. split; [done|by left].
    + rewrite create_pptx_single_line_raises by done.
      intros [= <- <-]. split; [done|]. right. by eexists.
Qed.

Lemma built_three_run env path path_exists dua_lines title w r w' :
  built env path
    (create_pptx_three_lines path_exists (picture_ok_in env) dua_lines title
       (Some path)) w = (r, w') →
  w' = w ∧
  ((∃ groups,
      paginate dua_lines 3 = Some groups ∧
      r = Return (presentation_of
                    (three_slide path_exists (Some path) <$> groups))) ∨
   ∃ e, r = Raise e).
Proof.
  destruct (usable_dec path_exists (picture_ok_in env) (Some path)) as [Hu|Hu].
  - destruct (create_pptx_three_lines_slides path_exists (picture_ok_in env)
                dua_lines title (Some path) Hu) as (groups & Hg & ->).
    intros [= <- <-]. split; [done|]. left. by exists groups.
  - destruct dua_lines as [|line dua_lines].
    + intros [= <- <-]. split; [done|]. left. by exists [].
    + rewrite create_pptx_three_lines_raises by done.
      intros [= <- <-]. split; [done|]. right. by eexists.
Qed.

(** The calls that read or write the world and cannot raise. *)
Lemma ret_run' {A : Type} (m : Bot A) a w1 w r w' :
  m w = (Return a, w1) → m w = (r, w') → r = Return a ∧ w' = w1.
Proof. intros -> [= <- <-]. done. Qed.

(** One step of a run, whatever the call. *)
Ltac run_step :=
  match goal with
  | H : bind _ _ _ = (_, _) |- _ =>
      apply bind_run in H as [(? & H & ?)|(? & ? & ? & H)]
  | H : try_except _ _ _ = (_, _) |- _ =>
      apply try_except_run in H as [(? & H & ?)|(? & ? & ? & H)]
  | H : ret _ _ = (_, _) |- _ => apply ret_run in H as [? ?]
  | H : raise _ _ = (_, _) |- _ => apply raise_run in H as [? ?]
  | H : reply_text _ _ _ = (_, _) |- _ =>
      apply send_run in H as [(? & ? & ?)|(? & ? & ? & ?)]
  | H : reply_document _ _ _ _ _ = (_, _) |- _ =>
      apply send_run in H as [(? & ? & ?)|(? & ? & ? & ?)]
  | H : outside _ _ = (_, _) |- _ =>
      apply outside_run in H as [? [[? ?]|(? & ? & ?)]]
  | H : scrape_dua_from_url _ _ _ = (_, _) |- _ =>
      apply scrape_dua_from_url_run in H
        as [? [(? & ? & ?)|(? & ? & ? & ? & ? & ?)]]
  | H : built _ _ (create_pptx_single_line _ _ _ _ _) _ = (_, _) |- _ =>
      apply built_single_run in H as [? [?|(? & ?)]]
  | H : built _ _ (create_pptx_three_lines _ _ _ _ _) _ = (_, _) |- _ =>
      apply built_three_run in H as [? [(? & ? & ?)|(? & ?)]]
  | H : get_user_data _ = (_, _) |- _ =>
      apply (ret_run' _ _ _ _ _ _ eq_refl) in H as [? ?]
  | H : path_exists_now _ = (_, _) |- _ =>
      apply (ret_run' _ _ _ _ _ _ eq_refl) in H as [? ?]
  | H : set_user_data _ _ = (_, _) |- _ =>
      apply (ret_run' _ _ _ _ _ _ eq_refl) in H as [? ?]
  | H : set_file _ _ _ = (_, _) |- _ =>
      apply (ret_run' _ _ _ _ _ _ eq_refl) in H as [? ?]
  end.

Ltac run := repeat (run_step; simplify_eq/=).

Ltac tidy :=
  simplify_eq; cbn [user_data files trace ud_dua_lines ud_title fst snd] in *.

Ltac run_all := repeat (first [run_step | case_match]; tidy).

Ltac grows := repeat apply prefix_app_r; done.

Ltac finish := repeat split; try done; try grows; eauto 10.

(** ** [receive_link] *)

(** X11. [receive_link] asks for nothing but duas.org pages: a request it
    makes is for the stripped text of the message, and that text starts
    with one of the two accepted prefixes. *)
Theorem receive_link_requests (env : Env) (update : Update) (w w' : World)
    (r : outcome Z) (url : pystr) :
  receive_link env update w = (r, w') →
  HttpGet url ∈ trace w' →
  HttpGet url ∈ trace w ∨
  ∃ text,
    message_text update = Some text ∧ url = strip text ∧
    (startswith url (lit "https://www.duas.org/") = true ∨
     startswith url (lit "http://www.duas.org/") = true).
Proof.
  intros H Hin. unfold receive_link in H. run_all.
  all: rewrite ?elem_of_app, ?list_elem_of_singleton in Hin.
  all: destruct_or?; simplify_eq; try (by left).
  all: right; eexists; split; [done|]; split; [done|].
  all: match goal with
       | Hv : negb _ && negb _ = false |- _ =>
           apply andb_false_iff in Hv as [Hv|Hv]; apply negb_false_iff in Hv
       end; auto.
Qed.

Lemma receive_link_requests_witness :
  HttpGet (lit "https://www.duas.org/kumayl.html") ∈ trace new_world ∨
  ∃ text,
    message_text link_update = Some text ∧
    lit "https://www.duas.org/kumayl.html" = strip text ∧
    (startswith (lit "https://www.duas.org/kumayl.html")
       (lit "https://www.duas.org/") = true ∨
     startswith (lit "https://www.duas.org/kumayl.html")
       (lit "http://www.duas.org/") = true).
Proof.
  apply (receive_link_requests (quiet_env sample_page) link_update new_world
           (snd (receive_link (quiet_env sample_page) link_update new_world))
           (fst (receive_link (quiet_env sample_page) link_update new_world))).
  - apply surjective_pairing.
  - vm_compute. apply list_elem_of_In. simpl. tauto.
Defined.

(** X12. When [receive_link] hands over to the image step, the page of
    the stripped link was fetched, [scrape_dua] found at least one line
    in it, and exactly these lines and the title are stored in
    [user_data]; three things went out, in this order: the notice, the
    request, and the count of lines with the title. *)
Theorem receive_link_accepts (env : Env) (update : Update) (w w' : World) :
  receive_link env update w = (Return WAITING_IMAGE, w') →
  ∃ text soup line lines title,
    message_text update = Some text ∧
    fetch env (strip text) = inr soup ∧
    scrape_dua soup = Some (line :: lines, title) ∧
    user_data w' = {| ud_dua_lines := Some (line :: lines);
                      ud_title := Some title |} ∧
    files w' = files w ∧
    trace w' = trace w ++ [ReplyText scraping_text; HttpGet (strip text);
                           ReplyText (found_text (line :: lines) title)].
Proof.
  intros H. unfold receive_link in H. run_all.
  eexists _, _, _, _, _. repeat (split; [done|]).
  by rewrite <- !app_assoc.
Qed.

Lemma receive_link_accepts_witness :
  ∃ text soup line lines title,
    message_text link_update = Some text ∧
    fetch (quiet_env sample_page) (strip text) = inr soup ∧
    scrape_dua soup = Some (line :: lines, title) ∧
    user_data (snd (receive_link (quiet_env sample_page) link_update new_world))
    = {| ud_dua_lines := Some (line :: lines); ud_title := Some title |} ∧
    files (snd (receive_link (quiet_env sample_page) link_update new_world))
    = files new_world ∧
    trace (snd (receive_link (quiet_env sample_page) link_update new_world))
    = trace new_world ++ [ReplyText scraping_text; HttpGet (strip text);
                          ReplyText (found_text (line :: lines) title)].
Proof.
  apply (receive_link_accepts (quiet_env sample_page) link_update new_world).
  vm_compute. reflexivity.
Defined.

(** X13. Whatever happens in [receive_link], no file is touched, nothing
    that went out before is lost, the conversation does not end, and
    [user_data] is either left as it was or holds a list of at least one
    line together with a title: an empty list is never stored. *)
Theorem receive_link_frame (env : Env) (update : Update) (w w' : World)
    (r : outcome Z) :
  receive_link env update w = (r, w') →
  files w' = files w ∧
  trace w `prefix_of` trace w' ∧
  (user_data w' = user_data w ∨
   ∃ line lines title,
     user_data w' = {| ud_dua_lines := Some (line :: lines);
                       ud_title := Some title |}) ∧
  (r = Return WAITING_LINK ∨ r = Return WAITING_IMAGE ∨ ∃ e, r = Raise e).
Proof.
  intros H. unfold receive_link in H. run_all; finish.
Qed.

Lemma receive_link_frame_witness :
  files (snd (receive_link (quiet_env sample_page) link_update new_world))
  = files new_world ∧
  trace new_world `prefix_of`
    trace (snd (receive_link (quiet_env sample_page) link_update new_world)) ∧
  (user_data (snd (receive_link (quiet_env sample_page) link_update new_world))
   = user_data new_world ∨
   ∃ line lines title,
     user_data (snd (receive_link (quiet_env sample_page) link_update new_world))
     = {| ud_dua_lines := Some (line :: lines); ud_title := Some title |}) ∧
  (fst (receive_link (quiet_env sample_page) link_update new_world)
   = Return WAITING_LINK ∨
   fst (receive_link (quiet_env sample_page) link_update new_world)
   = Return WAITING_IMAGE ∨
   ∃ e, fst (receive_link (quiet_env sample_page) link_update new_world)
        = Raise e).
Proof.
  apply (receive_link_frame (quiet_env sample_page) link_update new_world).
  apply surjective_pairing.
Defined.

(** ** [receive_image] *)

Lemma read_back_single path_exists bg (dua_lines : list DuaLine) :
  concat (slide_lines <$> (single_slide path_exists bg <$> dua_lines)) = dua_lines.
Proof.
  rewrite <- list_fmap_compose.
  rewrite <- (concat_singletons dua_lines) at 2. f_equal.
  apply list_fmap_ext. intros _ line _. apply slide_lines_single_slide.
Qed.

Lemma read_back_three path_exists bg (dua_lines : list DuaLine) groups :
  paginate dua_lines 3 = Some groups →
  concat (slide_lines <$> (three_slide path_exists bg <$> groups)) = dua_lines.
Proof.
  rewrite paginate_runs by lia. intros [= <-].
  rewrite <- !list_fmap_compose.
  etransitivity; [|apply (concat_runs 3 ((length dua_lines + (3 - 1)) / 3))].
  - f_equal. apply list_fmap_ext. intros _ g _. apply slide_lines_three_slide.
  - apply runs_cover. lia.
Qed.





(** X15. Whatever happens in [receive_image], the only file it can
    create or remove is the temporary image of the user who sent the
    update; nothing that went out before is lost and no page is
    requested; [user_data] is left as it was or emptied; the
    conversation does not end. Without a photo the step is not left, no
    file and nothing in [user_data] changes, and one thing at most goes
    out: the request for an image, after which the handler returns; when
    that reply fails, nothing goes out and its exception is raised. *)
Theorem receive_image_frame (env : Env) (update : Update) (w w' : World)
    (r : outcome Z) :
  receive_image env update w = (r, w') →
  (∀ p, p ≠ image_path_of update → files w' p = files w p) ∧
  trace w `prefix_of` trace w' ∧
  (∀ url, HttpGet url ∈ trace w' → HttpGet url ∈ trace w) ∧
  (user_data w' = user_data w ∨ user_data w' = no_user_data) ∧
  (r = Return WAITING_LINK ∨ r = Return WAITING_IMAGE ∨ ∃ e, r = Raise e) ∧
  (message_photo update = [] →
   files w' = files w ∧ user_data w' = user_data w ∧
   r ≠ Return WAITING_LINK ∧
   ((r = Return WAITING_IMAGE ∧
     trace w' = trace w ++ [ReplyText need_image_text]) ∨
    (∃ e, send_error env (trace w) (ReplyText need_image_text) = Some e ∧
          r = Raise e ∧ trace w' = trace w))).
Proof.
  intros H. unfold receive_image in H. run_all.
  all: split; [intros q Hq; by rewrite ?decide_False by done|].
  all: split; [grows|].
  all: split;
    [intros url Hin; rewrite ?elem_of_app, ?list_elem_of_singleton in Hin;
     destruct_or?; by simplify_eq|].
  all: split; [eauto|]. all: split; [eauto 10|]. all: try done.
  all: intros _; repeat (split; [done|]); eauto.
Qed.

Lemma receive_image_frame_witness :
  (∀ p, p ≠ image_path_of link_update →
        files (snd (receive_image (quiet_env sample_page) link_update
                      world_with_lines)) p
        = files world_with_lines p) ∧
  trace world_with_lines `prefix_of`
    trace (snd (receive_image (quiet_env sample_page) link_update
                  world_with_lines)) ∧
  (∀ url,
     HttpGet url ∈ trace (snd (receive_image (quiet_env sample_page)
                                 link_update world_with_lines)) →
     HttpGet url ∈ trace world_with_lines) ∧
  (user_data (snd (receive_image (quiet_env sample_page) link_update
                     world_with_lines))
   = user_data world_with_lines ∨
   user_data (snd (receive_image (quiet_env sample_page) link_update
                     world_with_lines))
   = no_user_data) ∧
  (fst (receive_image (quiet_env sample_page) link_update world_with_lines)
   = Return WAITING_LINK ∨
   fst (receive_image (quiet_env sample_page) link_update world_with_lines)
   = Return WAITING_IMAGE ∨
   ∃ e, fst (receive_image (quiet_env sample_page) link_update
               world_with_lines) = Raise e) ∧
  files (snd (receive_image (quiet_env sample_page) link_update
                world_with_lines))
  = files world_with_lines ∧
  user_data (snd (receive_image (quiet_env sample_page) link_update
                    world_with_lines))
  = user_data world_with_lines ∧
  fst (receive_image (quiet_env sample_page) link_update world_with_lines)
  ≠ Return WAITING_LINK ∧
  ((fst (receive_image (quiet_env sample_page) link_update world_with_lines)
    = Return WAITING_IMAGE ∧
    trace (snd (receive_image (quiet_env sample_page) link_update
                  world_with_lines))
    = trace world_with_lines ++ [ReplyText need_image_text]) ∨
   (∃ e, send_error (quiet_env sample_page) (trace world_with_lines)
           (ReplyText need_image_text) = Some e ∧
         fst (receive_image (quiet_env sample_page) link_update
                world_with_lines) = Raise e ∧
         trace (snd (receive_image (quiet_env sample_page) link_update
                       world_with_lines))
         = trace world_with_lines)).
Proof.
  destruct (receive_image_frame (quiet_env sample_page) link_update
              world_with_lines
              (snd (receive_image (quiet_env sample_page) link_update
                      world_with_lines))
              (fst (receive_image (quiet_env sample_page) link_update
                      world_with_lines)))
    as (Hf & Ht & Hu & Hd & Hr & Hn); [apply surjective_pairing|].
  do 5 (split; [assumption|]). apply Hn. reflexivity.
Defined.

(** X16. A failure after the download. When the file handle and the
    download went through and [receive_image] still stays in the image
    step, then either the stored lines are kept and the temporary image
    file is left behind, or everything had been done (both documents
    sent, the file removed, [user_data] emptied) and only the closing
    message failed. *)
Theorem receive_image_failure (env : Env) (update : Update) (w w' : World)
    (photo : PhotoSize) :
  list.last (message_photo update) = Some photo →
  get_file_error env (file_id photo) = None →
  download_error env (image_path_of update) = None →
  receive_image env update w = (Return WAITING_IMAGE, w') →
  (user_data w' = user_data w ∧ files w' (image_path_of update) = true) ∨
  (user_data w' = no_user_data ∧ files w' (image_path_of update) = false ∧
   ∃ prs1 prs3 e,
     trace w' =
       trace w ++
       [ReplyText processing_text;
        ReplyDocument prs1
          (single_filename (default (lit "Dua") (ud_title (user_data w))))
          single_caption;
        ReplyDocument prs3
          (three_filename (default (lit "Dua") (ud_title (user_data w))))
          three_caption;
        ReplyText (generation_error_text e)]).
Proof.
  intros Hlast Hget Hdown H. unfold receive_image in H. run_all.
  all: try (left; split; [done|]; by rewrite ?decide_True by done).
  all: try congruence.
  right. split; [done|]. split; [done|].
  eexists _, _, _. by rewrite <- !app_assoc.
Qed.

Lemma receive_image_failure_witness :
  (user_data (snd (receive_image (bad_image_env sample_page) photo_update
                     world_with_lines))
   = user_data world_with_lines ∧
   files (snd (receive_image (bad_image_env sample_page) photo_update
                 world_with_lines))
         (image_path_of photo_update) = true) ∨
  (user_data (snd (receive_image (bad_image_env sample_page) photo_update
                     world_with_lines))
   = no_user_data ∧
   files (snd (receive_image (bad_image_env sample_page) photo_update
                 world_with_lines))
         (image_path_of photo_update) = false ∧
   ∃ prs1 prs3 e,
     trace (snd (receive_image (bad_image_env sample_page) photo_update
                   world_with_lines)) =
       trace world_with_lines ++
       [ReplyText processing_text;
        ReplyDocument prs1
          (single_filename
             (default (lit "Dua") (ud_title (user_data world_with_lines))))
          single_caption;
        ReplyDocument prs3
          (three_filename
             (default (lit "Dua") (ud_title (user_data world_with_lines))))
          three_caption;
        ReplyText (generation_error_text e)]).
Proof.
  apply (receive_image_failure (bad_image_env sample_page) photo_update
           world_with_lines _ (mkPhotoSize (lit "large"))).
  - reflexivity.
  - reflexivity.
  - reflexivity.
  - vm_compute. reflexivity.
Defined.

(** X17. Missing keys. When nothing is stored in [user_data] and
    [receive_image] runs through, it does not fail: it sends two
    presentations without slides, named [Dua_single_line.pptx] and
    [Dua_three_lines.pptx]. *)
Theorem receive_image_defaults (env : Env) (update : Update) (w w' : World) :
  user_data w = no_user_data →
  receive_image env update w = (Return WAITING_LINK, w') →
  ∃ prs1 prs3,
    slides prs1 = [] ∧ slides prs3 = [] ∧
    trace w' =
      trace w ++
      [ReplyText processing_text;
       ReplyDocument prs1 (lit "Dua_single_line.pptx") single_caption;
       ReplyDocument prs3 (lit "Dua_three_lines.pptx") three_caption;
       ReplyText done_text].
Proof.
  intros Hud H. unfold receive_image in H. run_all.
  rewrite Hud in *. cbn [ud_dua_lines ud_title default no_user_data] in *.
  match goal with Hp : paginate [] 3 = Some _ |- _ => injection Hp as <- end.
  eexists _, _. split; [|split]; [| |by rewrite <- !app_assoc]; reflexivity.
Qed.

Lemma receive_image_defaults_witness :
  ∃ prs1 prs3,
    slides prs1 = [] ∧ slides prs3 = [] ∧
    trace (snd (receive_image (quiet_env sample_page) photo_update new_world)) =
      trace new_world ++
      [ReplyText processing_text;
       ReplyDocument prs1 (lit "Dua_single_line.pptx") single_caption;
       ReplyDocument prs3 (lit "Dua_three_lines.pptx") three_caption;
       ReplyText done_text].
Proof.
  apply (receive_image_defaults (quiet_env sample_page) photo_update new_world).
  - reflexivity.
  - vm_compute. reflexivity.
Defined.

(** ** The temporary image file *)

Lemma lit_inj (s1 s2 : string) : lit s1 = lit s2 → s1 = s2.
Proof.
  revert s2. induction s1 as [|c1 s1 IH]; intros [|c2 s2]; unfold lit;
    fold lit; intros H; try done.
  injection H as Hc Hs. f_equal; [|by apply IH].
  by rewrite <- (ascii_N_embedding c1), <- (ascii_N_embedding c2), Hc.
Qed.

Lemma to_int_proper (z : Z) :
  Z.to_int z ≠ Decimal.Pos Decimal.Nil ∧ Z.to_int z ≠ Decimal.Neg Decimal.Nil.
Proof.
  destruct z as [|p|p]; simpl; split; try done;
    intros [= H]; by apply DecimalPos.Unsigned.to_uint_nonnil in H.
Qed.

Lemma py_str_int_inj (z1 z2 : Z) : py_str_int z1 = py_str_int z2 → z1 = z2.
Proof.
  unfold py_str_int. intros H. apply lit_inj in H.
  apply (f_equal NilZero.int_of_string) in H.
  destruct (to_int_proper z1), (to_int_proper z2).
  rewrite !NilZero.isi in H by done. injection H as H.
  by rewrite <- (DecimalZ.of_to z1), <- (DecimalZ.of_to z2), H.
Qed.

(** X18. Two users never share a temporary image file: the path is
    different for different user ids. *)
Theorem image_path_of_inj (update1 update2 : Update) :
  image_path_of update1 = image_path_of update2 →
  effective_user_id update1 = effective_user_id update2.
Proof.
  unfold image_path_of. intros H.
  apply app_inv_head, app_inv_tail in H. by apply py_str_int_inj.
Qed.

Lemma image_path_of_inj_witness :
  effective_user_id photo_update = effective_user_id link_update.
Proof. apply image_path_of_inj. reflexivity. Defined.

(** ** The handlers in sequence *)

Lemma paginate_some_group (dua_lines : list DuaLine) k groups :
  1 ≤ k → paginate dua_lines k = Some groups → dua_lines ≠ [] → groups ≠ [].
Proof.
  intros Hk Hp Hne ->. apply Hne.
  rewrite paginate_runs in Hp by done. injection Hp as Hp.
  rewrite <- (concat_runs k ((length dua_lines + (k - 1)) / k) dua_lines)
    by (by apply runs_cover).
  by rewrite Hp.
Qed.

(** X19. From the link to the documents. When [receive_link] accepts a
    link and [receive_image] then runs through, the two documents that
    go out hold exactly the lines that [scrape_dua] found in the page of
    that link, in order, they have at least one slide each, they are
    named after the title of the page, and nothing is left in
    [user_data]. *)
Theorem link_then_image (env : Env) (update1 update2 : Update)
    (w w1 w2 : World) :
  receive_link env update1 w = (Return WAITING_IMAGE, w1) →
  receive_image env update2 w1 = (Return WAITING_LINK, w2) →
  ∃ text soup lines title prs1 prs3,
    message_text update1 = Some text ∧
    fetch env (strip text) = inr soup ∧
    scrape_dua soup = Some (lines, title) ∧
    lines ≠ [] ∧
    trace w2 =
      trace w ++
      [ReplyText scraping_text; HttpGet (strip text);
       ReplyText (found_text lines title);
       ReplyText processing_text;
       ReplyDocument prs1 (single_filename title) single_caption;
       ReplyDocument prs3 (three_filename title) three_caption;
       ReplyText done_text] ∧
    concat (slide_lines <$> slides prs1) = lines ∧
    concat (slide_lines <$> slides prs3) = lines ∧
    slides prs1 ≠ [] ∧ slides prs3 ≠ [] ∧
    user_data w2 = no_user_data.
Proof.
  intros H1 H2. unfold receive_link in H1. unfold receive_image in H2.
  run_all.
  eexists _, _, _, _, _, _. repeat (split; [done|]).
  split; [by rewrite <- !app_assoc|].
  cbn [slides presentation_of].
  split; [apply read_back_single|]. split; [by apply read_back_three|].
  split; [done|]. split; [|done].
  match goal with
  | Hp : paginate _ 3 = Some ?g |- _ =>
      apply (paginate_some_group _ 3 g) in Hp; [|lia|done];
      by destruct g
  end.
Qed.

Lemma link_then_image_witness :
  ∃ text soup lines title prs1 prs3,
    message_text link_update = Some text ∧
    fetch (quiet_env sample_page) (strip text) = inr soup ∧
    scrape_dua soup = Some (lines, title) ∧
    lines ≠ [] ∧
    trace (snd (receive_image (quiet_env sample_page) photo_update
                  (snd (receive_link (quiet_env sample_page) link_update
                          new_world)))) =
      trace new_world ++
      [ReplyText scraping_text; HttpGet (strip text);
       ReplyText (found_text lines title);
       ReplyText processing_text;
       ReplyDocument prs1 (single_filename title) single_caption;
       ReplyDocument prs3 (three_filename title) three_caption;
       ReplyText done_text] ∧
    concat (slide_lines <$> slides prs1) = lines ∧
    concat (slide_lines <$> slides prs3) = lines ∧
    slides prs1 ≠ [] ∧ slides prs3 ≠ [] ∧
    user_data (snd (receive_image (quiet_env sample_page) photo_update
                      (snd (receive_link (quiet_env sample_page) link_update
                              new_world)))) = no_user_data.
Proof.
  apply (link_then_image (quiet_env sample_page) link_update photo_update
           new_world
           (snd (receive_link (quiet_env sample_page) link_update new_world))).
  - vm_compute. reflexivity.
  - vm_compute. reflexivity.
Defined.
